(** * skyframe-frontend: the token-authenticated API client and the route guard

    A shallow embedding of the two pieces of the frontend that carry a
    contract:

    - [src/lib/config.ts], second part (the module imported as [@/lib/api]):
      the axios instance [api] with its request interceptor (attach the token)
      and its response interceptor (tear the session down on 401);
    - the [middleware] function of the Next.js edge middleware, which
      redirects cookie-less requests for dashboard pages.

    The browser globals the code reads and writes ([localStorage],
    [window.location]) are an explicit [World]; a handler is a function from
    the world to the way its promise settles and the world it leaves. *)

From Stdlib Require Import ZArith String List.
From stdpp Require Import base option gmap strings pretty.

Local Open Scope Z_scope.

(** ** JavaScript values the code touches *)

Module JS.

(** [string | null] and [string | undefined] are both [option string]. *)

(** Truthiness of a [string | null] value, as tested by [if (token)] and
    [!token]: [null], [undefined] and the empty string are falsy. *)
Definition truthy (v : option string) : bool :=
  match v with
  | Some s => negb (String.eqb s "")
  | None => false
  end.

(** [`${v}`] inside a template literal. *)
Definition to_string (v : option string) : string :=
  match v with
  | Some s => s
  | None => "null"
  end.

(** [s.startsWith(p)] *)
Definition startsWith (s p : string) : bool := String.prefix p s.

End JS.

(** ** The HTTP data of axios that the interceptors see *)

Record Response := mkResponse {
  status : Z;
  data : string
}.

(** What a promise can be rejected with here: an axios error, which carries
    the response when the server answered and none when the transport failed,
    or the [ReferenceError] of reading a global that does not exist. *)
Inductive JsError :=
| AxiosError (message : string) (response : option Response)
| ReferenceError (message : string).

(** [error.response] *)
Definition error_response (e : JsError) : option Response :=
  match e with
  | AxiosError _ r => r
  | ReferenceError _ => None
  end.

(** [error.response?.status] *)
Definition error_response_status (e : JsError) : option Z :=
  status <$> error_response e.

Record RequestConfig := mkRequestConfig {
  method : string;
  url : string;
  headers : gmap string string;
  body : option string
}.

(** [config.headers.K = v] *)
Definition set_header (k v : string) (config : RequestConfig) : RequestConfig :=
  {| method := method config;
     url := url config;
     headers := <[k := v]> (headers config);
     body := body config |}.

(** ** The world: browser globals *)

(** [window]: the location last assigned to [window.location.href], and the
    navigations those assignments started, oldest first. *)
Record Window := mkWindow {
  location_href : string;
  navigations : list string
}.

(** Both globals may be missing: the module is also evaluated where there is
    no browser. [localStorage] is a [Storage], string keys to string values. *)
Record World := mkWorld {
  localStorage : option (gmap string string);
  window : option Window
}.

(** How the promise of a handler settles. A handler that throws, and one that
    returns [Promise.reject(e)], both reject the promise chained on it. *)
Inductive Settled (A : Type) :=
| Fulfilled (a : A)
| Rejected (e : JsError).

Arguments Fulfilled {A} a.
Arguments Rejected {A} e.

(** A handler: state passing over the world, with rejection. *)
Definition Eff (A : Type) : Type := World -> Settled A * World.

#[global] Instance Eff_ret : MRet Eff :=
  fun A (a : A) w => (Fulfilled a, w).

#[global] Instance Eff_bind : MBind Eff :=
  fun A B (k : A -> Eff B) (m : Eff A) w =>
    match m w with
    | (Fulfilled a, w') => k a w'
    | (Rejected e, w') => (Rejected e, w')
    end.

Definition throw {A : Type} (e : JsError) : Eff A :=
  fun w => (Rejected e, w).

(** [Promise.reject(e)] as the value a handler returns. *)
Definition Promise_reject {A : Type} (e : JsError) : Eff A :=
  fun w => (Rejected e, w).

(** Reading a global identifier that is not defined throws. *)
Definition not_defined (name : string) : JsError :=
  ReferenceError (name +:+ " is not defined").

(** [localStorage.getItem(key)] *)
Definition localStorage_getItem (key : string) : Eff (option string) :=
  fun w =>
    match localStorage w with
    | Some store => (Fulfilled (store !! key), w)
    | None => (Rejected (not_defined "localStorage"), w)
    end.

(** [localStorage.removeItem(key)] *)
Definition localStorage_removeItem (key : string) : Eff unit :=
  fun w =>
    match localStorage w with
    | Some store =>
        (Fulfilled tt,
         {| localStorage := Some (delete key store); window := window w |})
    | None => (Rejected (not_defined "localStorage"), w)
    end.

(** [typeof window !== 'undefined']: [typeof] never throws. *)
Definition typeof_window_defined : Eff bool :=
  fun w =>
    (Fulfilled (match window w with Some _ => true | None => false end), w).

(** [window.location.href = target]: starts a navigation. *)
Definition navigate (target : string) (win : Window) : Window :=
  {| location_href := target; navigations := navigations win ++ [target] |}.

Definition window_location_set_href (target : string) : Eff unit :=
  fun w =>
    match window w with
    | Some win =>
        (Fulfilled tt,
         {| localStorage := localStorage w;
            window := Some (navigate target win) |})
    | None => (Rejected (not_defined "window"), w)
    end.

(** The navigations the world has seen; none where there is no window. *)
Definition navigation_log (w : World) : list string :=
  match window w with
  | Some win => navigations win
  | None => []
  end.

(** The navigations started between world [w] and the later world [w']. *)
Definition navigations_fired (w w' : World) : list string :=
  drop (length (navigation_log w)) (navigation_log w').

(** The Token Store of the specification: the ['token'] entry. *)
Definition stored_token (w : World) : option string :=
  store ← localStorage w; store !! "token".

(** ** [api]: the authenticated HTTP client *)

Module Api.

(** Request interceptor, fulfilled handler:
<<
  (config) => {
    const token = localStorage.getItem('token');
    if (token) { config.headers.Authorization = `Bearer ${token}`; }
    return config;
  }
>> *)
Definition request_onFulfilled (config : RequestConfig) : Eff RequestConfig :=
  token ← localStorage_getItem "token";
  if JS.truthy token
  then mret (set_header "Authorization" ("Bearer " +:+ JS.to_string token) config)
  else mret config.

(** Request interceptor, rejected handler:
    [(error) => { return Promise.reject(error); }] *)
Definition request_onRejected (error : JsError) : Eff RequestConfig :=
  Promise_reject error.

(** Response interceptor, fulfilled handler:
    [(response) => { return response; }] *)
Definition response_onFulfilled (response : Response) : Eff Response :=
  mret response.

(** Response interceptor, rejected handler:
<<
  (error) => {
    if (error.response?.status === 401) {
      localStorage.removeItem('token');
      if (typeof window !== 'undefined') {
        window.location.href = '/sign_in';
      }
    }
    return Promise.reject(error);
  }
>> *)
Definition response_onRejected (error : JsError) : Eff Response :=
  (if bool_decide (error_response_status error = Some 401)
   then
     localStorage_removeItem "token";;
     has_window ← typeof_window_defined;
     if has_window : bool
     then window_location_set_href "/sign_in"
     else mret tt
   else mret tt);;
  Promise_reject error.

End Api.

(** ** How axios runs a request through the interceptors

    [api] is created with [baseURL] and [timeout] only, so axios applies its
    defaults: a response settles by the default [validateStatus], and the
    handlers are chained with [then] in the order request interceptor,
    dispatch, response interceptor. *)

Module Axios.

(** The default [validateStatus]: [status >= 200 && status < 300]. *)
Definition validateStatus (status : Z) : bool :=
  (200 <=? status) && (status <? 300).

(** What the transport gives back: a response of the server, or none
    (network failure, timeout). *)
Inductive Transport :=
| Replied (response : Response)
| NoReply (message : string).

(** [settle]: a response outside the valid statuses becomes an error that
    carries it. *)
Definition settle (response : Response) : Settled Response :=
  if validateStatus (status response)
  then Fulfilled response
  else Rejected
         (AxiosError ("Request failed with status code " +:+ pretty (status response))
                     (Some response)).

Definition dispatchRequest (adapter : RequestConfig -> Transport)
    (config : RequestConfig) : Eff Response :=
  fun w =>
    match adapter config with
    | Replied response => (settle response, w)
    | NoReply message => (Rejected (AxiosError message None), w)
    end.

(** [promise.then(onFulfilled, onRejected)] *)
Definition then_ {A B : Type} (promise : Eff A)
    (onFulfilled : A -> Eff B) (onRejected : JsError -> Eff B) : Eff B :=
  fun w =>
    match promise w with
    | (Fulfilled a, w') => onFulfilled a w'
    | (Rejected e, w') => onRejected e w'
    end.

(** [api.request(config)]: the chain of the three stages. The dispatch stage
    has no rejection handler, so a rejection of the request interceptor
    skips it. *)
Definition request (adapter : RequestConfig -> Transport)
    (config : RequestConfig) : Eff Response :=
  then_
    (then_
       (then_ (mret config) Api.request_onFulfilled Api.request_onRejected)
       (dispatchRequest adapter) throw)
    Api.response_onFulfilled Api.response_onRejected.

End Axios.

(** ** The route guard: [middleware] *)

Module RouteGuard.

Record URL := mkURL {
  origin : string;
  pathname : string;
  search : string
}.

(** [new URL(path, base)] for a [path] that starts with a slash: the origin
    of [base], the given path, no query. *)
Definition new_URL (path : string) (base : URL) : URL :=
  {| origin := origin base; pathname := path; search := "" |}.

(** [NextRequest]: the cookies by name, [nextUrl], and the URL that
    [request.url] spells. *)
Record NextRequest := mkNextRequest {
  cookies : gmap string string;
  nextUrl : URL;
  url : URL
}.

(** [NextResponse.redirect(target)] and [NextResponse.next()] *)
Inductive NextResponse :=
| redirect (target : URL)
| next.

(** [request.cookies.get(name)?.value] *)
Definition cookies_get_value (name : string) (request : NextRequest)
    : option string :=
  cookies request !! name.

(**
<<
  export function middleware(request) {
    const token = request.cookies.get('token')?.value;
    if (request.nextUrl.pathname.startsWith('/dashboard')) {
      if (!token) {
        return NextResponse.redirect(new URL('/sign_in', request.url));
      }
    }
    return NextResponse.next();
  }
>> *)
Definition middleware (request : NextRequest) : NextResponse :=
  let token := cookies_get_value "token" request in
  if JS.startsWith (pathname (nextUrl request)) "/dashboard"
  then
    if negb (JS.truthy token)
    then redirect (new_URL "/sign_in" (url request))
    else next
  else next.

(** A path the guard protects. *)
Definition protected (request : NextRequest) : Prop :=
  JS.startsWith (pathname (nextUrl request)) "/dashboard" = true.

(** The same request without its ['token'] cookie. *)
Definition without_token (request : NextRequest) : NextRequest :=
  {| cookies := delete "token" (cookies request);
     nextUrl := nextUrl request;
     url := url request |}.

End RouteGuard.

(** ** Concrete worlds, requests and errors used below *)

Module Sample.

Definition store_abc : gmap string string :=
  <["token" := "abc"]> (<["theme" := "dark"]> ∅).

Definition store_empty_token : gmap string string :=
  <["token" := ""]> (<["theme" := "dark"]> ∅).

Definition store_no_token : gmap string string :=
  <["theme" := "dark"]> ∅.

Definition tab : Window :=
  {| location_href := "/dashboard"; navigations := ["/dashboard"] |}.

Definition browser (store : gmap string string) : World :=
  {| localStorage := Some store; window := Some tab |}.

(** A storage global, but no window. *)
Definition windowless (store : gmap string string) : World :=
  {| localStorage := Some store; window := None |}.

(** Neither global. *)
Definition bare : World :=
  {| localStorage := None; window := None |}.

Definition get_profile : RequestConfig :=
  {| method := "get"; url := "/user/profile";
     headers := <["Accept" := "application/json"]> ∅; body := None |}.

Definition get_posts : RequestConfig :=
  {| method := "get"; url := "/posts"; headers := ∅; body := None |}.

Definition unauthorized : Response :=
  {| status := 401; data := "token expired" |}.

Definition error_401 : JsError :=
  AxiosError "Request failed with status code 401" (Some unauthorized).

Definition error_500 : JsError :=
  AxiosError "Request failed with status code 500"
    (Some {| status := 500; data := "" |}).

Definition network_error : JsError := AxiosError "Network Error" None.

Definition site (path : string) : RouteGuard.URL :=
  RouteGuard.mkURL "https://app.example" path "".

Definition visit (path : string) (jar : gmap string string)
    : RouteGuard.NextRequest :=
  RouteGuard.mkNextRequest jar (site path) (site path).

End Sample.

(** ** The claims as the specification words them, where the code differs *)

(** Exactly one navigation, to the sign-in path, for this error. *)
Definition navigates_exactly_once (w : World) (error : JsError) : Prop :=
  navigations_fired w (Api.response_onRejected error w).2 = ["/sign_in"].

(** The [Authorization] header of the request as it leaves the request
    interceptor; none when the interceptor rejects. *)
Definition outgoing_Authorization (config : RequestConfig) (w : World)
    : option string :=
  match (Api.request_onFulfilled config w).1 with
  | Fulfilled config' => headers config' !! "Authorization"
  | Rejected _ => None
  end.

(** The request as it reaches the transport. *)
Definition sent (store : gmap string string) (config : RequestConfig)
    : RequestConfig :=
  if JS.truthy (store !! "token")
  then set_header "Authorization"
         ("Bearer " +:+ JS.to_string (store !! "token")) config
  else config.

(** A backend that answers 401 and echoes the credential it was shown. *)
Definition rejecting_backend (config : RequestConfig) : Axios.Transport :=
  Axios.Replied
    {| status := 401; data := default "none" (headers config !! "Authorization") |}.

(** A backend that answers 200 and echoes the credential it was shown. *)
Definition public_backend (config : RequestConfig) : Axios.Transport :=
  Axios.Replied
    {| status := 200; data := default "none" (headers config !! "Authorization") |}.

(** * The rest of [src/lib/config.ts]: environment configuration and logger *)

(** ** Values and the console *)

Local Set Warnings "-register-all".

(** The values that are handed to the logging and debugging helpers: JSON
    data. An object keeps its fields in order. *)
Inductive JsValue :=
| VUndefined
| VNull
| VBool (b : bool)
| VNumber (n : Z)
| VString (s : string)
| VObject (fields : list (string * JsValue))
| VArray (items : list JsValue).

(** A [string | undefined] as a value. *)
Definition of_optional (v : option string) : JsValue :=
  match v with
  | Some s => VString s
  | None => VUndefined
  end.

(** One call on [console], or the [debugger] statement. *)
Inductive ConsoleCall :=
| console_log (args : list JsValue)
| console_info (args : list JsValue)
| console_warn (args : list JsValue)
| console_error (args : list JsValue)
| console_group (label : string)
| console_groupEnd
| console_table (tabular : JsValue)
| console_trace (label : string)
| console_time (label : string)
| console_timeEnd (label : string)
| console_clear
| debugger_statement.

(** How many groups a run of calls leaves open, counted from [depth]:
    [groupEnd] with no open group does nothing. *)
Fixpoint open_groups (depth : nat) (calls : list ConsoleCall) : nat :=
  match calls with
  | [] => depth
  | console_group _ :: rest => open_groups (S depth) rest
  | console_groupEnd :: rest => open_groups (Nat.pred depth) rest
  | _ :: rest => open_groups depth rest
  end.

(** Whether a call shows something or stops the program. *)
Definition is_pause (call : ConsoleCall) : bool :=
  match call with
  | debugger_statement => true
  | _ => false
  end.

Module Env.

(** [a || d]: [a] unless it is undefined or the empty string. *)
Definition or_default (a : option string) (d : string) : string :=
  match a with
  | Some s => if String.eqb s "" then d else s
  | None => d
  end.

(** [a === literal] for a [string | undefined]. *)
Definition strict_eq (a : option string) (literal : string) : bool :=
  bool_decide (a = Some literal).

Record Features := mkFeatures {
  analytics : bool;
  debugMode : bool;
  betaFeatures : bool;
  verboseLogging : bool
}.

(** [config]; the two one-field objects [stripe] and [analytics] are
    flattened into their field. *)
Record Config := mkConfig {
  env : string;
  nodeEnv : option string;
  apiUrl : string;
  appUrl : string;
  isDev : bool;
  isStaging : bool;
  isProd : bool;
  features : Features;
  stripe_publishableKey : option string;
  analytics_googleAnalyticsId : option string
}.

(** [export const config = { ... }], as a function of [process.env]. *)
Definition config (process_env : gmap string string) : Config :=
  let APP_ENV := process_env !! "NEXT_PUBLIC_APP_ENV" in
  {| env := or_default APP_ENV "development";
     nodeEnv := process_env !! "NODE_ENV";
     apiUrl := or_default (process_env !! "NEXT_PUBLIC_API_URL")
                 "http://localhost:3001/api";
     appUrl := or_default (process_env !! "NEXT_PUBLIC_APP_URL")
                 "http://localhost:3000";
     isDev := strict_eq APP_ENV "development";
     isStaging := strict_eq APP_ENV "staging";
     isProd := strict_eq APP_ENV "production";
     features :=
       {| analytics := strict_eq APP_ENV "production";
          debugMode := strict_eq APP_ENV "development";
          betaFeatures := strict_eq APP_ENV "staging";
          verboseLogging := negb (strict_eq APP_ENV "production") |};
     stripe_publishableKey := process_env !! "NEXT_PUBLIC_STRIPE_PUBLISHABLE_KEY";
     analytics_googleAnalyticsId := process_env !! "NEXT_PUBLIC_GOOGLE_ANALYTICS_ID" |}.

(** [isClient = typeof window !== 'undefined'] and [isServer = !isClient] *)
Definition isClient (w : World) : bool :=
  match window w with
  | Some _ => true
  | None => false
  end.

Definition isServer (w : World) : bool := negb (isClient w).

(** [baseURL] of [axios.create] in the second part of the file. *)
Definition api_baseURL (process_env : gmap string string) : string :=
  or_default (process_env !! "NEXT_PUBLIC_API_URL") "http://localhost:3001/api".

(** ** [logger] *)

Definition logger_debug (cfg : Config) (args : list JsValue)
    (out : list ConsoleCall) : list ConsoleCall :=
  if debugMode (features cfg)
  then out ++ [console_log (VString "[DEBUG]" :: args)]
  else out.

Definition logger_info (cfg : Config) (args : list JsValue)
    (out : list ConsoleCall) : list ConsoleCall :=
  if verboseLogging (features cfg)
  then out ++ [console_info (VString "[INFO]" :: args)]
  else out.

Definition logger_warn (args : list JsValue) (out : list ConsoleCall)
    : list ConsoleCall :=
  out ++ [console_warn (VString "[WARN]" :: args)].

Definition logger_error (args : list JsValue) (out : list ConsoleCall)
    : list ConsoleCall :=
  out ++ [console_error (VString "[ERROR]" :: args)].

(** ** What the module prints when it is loaded *)

(** [Object.keys(process.env)] *)
Definition keys (process_env : gmap string string) : list string :=
  (map_to_list process_env).*1.

(**
<<
  Object.keys(process.env)
    .filter(key => key.startsWith('NEXT_PUBLIC_'))
    .reduce((acc, key) => ({ ...acc, [key]: process.env[key] }), {})
>> *)
Definition public_vars (process_env : gmap string string)
    : gmap string (option string) :=
  foldl (fun acc key => <[key := process_env !! key]> acc) ∅
    (List.filter (fun key => JS.startsWith key "NEXT_PUBLIC_") (keys process_env)).

Definition object_of (m : gmap string (option string)) : JsValue :=
  VObject ((fun kv : string * option string => (kv.1, of_optional kv.2))
             <$> map_to_list m).

Definition features_object (f : Features) : JsValue :=
  VObject [("analytics", VBool (analytics f));
           ("debugMode", VBool (debugMode f));
           ("betaFeatures", VBool (betaFeatures f));
           ("verboseLogging", VBool (verboseLogging f))].

(** The block [if (config.features.debugMode) { ... }] at the end of the
    first part. *)
Definition on_load (process_env : gmap string string) (w : World)
    (out : list ConsoleCall) : list ConsoleCall :=
  let cfg := config process_env in
  if debugMode (features cfg)
  then
    let out1 :=
      logger_debug cfg
        [VString "Environment Config:";
         VObject [("env", VString (env cfg));
                  ("nodeEnv", of_optional (nodeEnv cfg));
                  ("apiUrl", VString (apiUrl cfg));
                  ("appUrl", VString (appUrl cfg));
                  ("features", features_object (features cfg));
                  ("isClient", VBool (isClient w));
                  ("isServer", VBool (isServer w))]]
        out in
    logger_debug cfg
      [VString "Available NEXT_PUBLIC_ vars:"; object_of (public_vars process_env)]
      out1
  else out.

End Env.

(** * [src/lib/debugger.ts]: the debugging helpers *)

(** [RequestInit], as far as [debug.api.request] and [serverApiCall] read
    it. *)
Record RequestInit := mkRequestInit {
  init_method : option string;
  init_headers : option (gmap string string);
  init_body : option string
}.

Module Debug.

Import Env.

(** [typeof v] *)
Definition typeof (v : JsValue) : string :=
  match v with
  | VUndefined => "undefined"
  | VNull => "object"
  | VBool _ => "boolean"
  | VNumber _ => "number"
  | VString _ => "string"
  | VObject _ => "object"
  | VArray _ => "object"
  end.

(** [v?.constructor?.name] *)
Definition constructor_name (v : JsValue) : JsValue :=
  match v with
  | VUndefined => VUndefined
  | VNull => VUndefined
  | VBool _ => VString "Boolean"
  | VNumber _ => VString "Number"
  | VString _ => VString "String"
  | VObject _ => VString "Object"
  | VArray _ => VString "Array"
  end.

(** Truthiness of a value, as in [if (data)]. *)
Definition truthy (v : JsValue) : bool :=
  match v with
  | VUndefined => false
  | VNull => false
  | VBool b => b
  | VNumber n => negb (n =? 0)
  | VString s => negb (String.eqb s "")
  | VObject _ => true
  | VArray _ => true
  end.

(** [typeof v === 'object' && v !== null] *)
Definition is_object (v : JsValue) : bool :=
  String.eqb (typeof v) "object"
  && match v with VNull => false | _ => true end.

(** The first field of that name, as [fields[name]] reads it. *)
Fixpoint field (name : string) (fields : list (string * JsValue)) : JsValue :=
  match fields with
  | [] => VUndefined
  | (k, v) :: rest => if String.eqb k name then v else field name rest
  end.

(** [v.name] for a name that no built-in prototype defines ([status],
    [headers]): reading it off [undefined] or [null] throws a [TypeError],
    [None] here. *)
Definition member (name : string) (v : JsValue) : option JsValue :=
  match v with
  | VUndefined => None
  | VNull => None
  | VObject fields => Some (field name fields)
  | _ => Some VUndefined
  end.

Definition headers_object (h : gmap string string) : JsValue :=
  VObject ((fun kv : string * string => (kv.1, VString kv.2)) <$> map_to_list h).

(** [debug.inspect(obj, label)]: the value returned and the console. *)
Definition inspect (cfg : Config) (obj : JsValue) (label : option string)
    (out : list ConsoleCall) : JsValue * list ConsoleCall :=
  if negb (debugMode (features cfg)) then (obj, out)
  else
    (obj,
     out
     ++ [console_group ("🔍 " +:+ or_default label "Debug Inspect");
         console_log [VString "Type:"; VString (typeof obj)];
         console_log [VString "Constructor:"; constructor_name obj];
         console_log [VString "Value:"; obj]]
     ++ (if is_object obj then [console_table obj] else [])
     ++ [console_trace "Call stack"; console_groupEnd]).

(** [debug.when(condition, ...args)] *)
Definition when (cfg : Config) (condition : bool) (args : list JsValue)
    (out : list ConsoleCall) : list ConsoleCall :=
  if negb (debugMode (features cfg)) then out
  else if condition
       then out ++ [console_log (VString "🐛 Debug condition met:" :: args);
                    debugger_statement]
       else out.

(** [debug.time(label)] and [debug.timeEnd(label)] *)
Definition time (cfg : Config) (label : string) (out : list ConsoleCall)
    : list ConsoleCall :=
  if negb (debugMode (features cfg)) then out
  else out ++ [console_time ("⏱️ " +:+ label)].

Definition timeEnd (cfg : Config) (label : string) (out : list ConsoleCall)
    : list ConsoleCall :=
  if negb (debugMode (features cfg)) then out
  else out ++ [console_timeEnd ("⏱️ " +:+ label)].

(** [debug.breakpoint(data, message)]; a missing [data] is [undefined]. *)
Definition breakpoint (cfg : Config) (data : JsValue) (message : option string)
    (out : list ConsoleCall) : list ConsoleCall :=
  if negb (debugMode (features cfg)) then out
  else
    out
    ++ [console_log
          [VString ("🛑 Breakpoint: " +:+ or_default message "Execution paused")]]
    ++ (if truthy data then [console_log [VString "Context data:"; data]] else [])
    ++ [console_trace "Stack trace"; debugger_statement].

(** [debug.info], [debug.warn], [debug.error] *)
Definition info (cfg : Config) (args : list JsValue) (out : list ConsoleCall)
    : list ConsoleCall :=
  if negb (verboseLogging (features cfg)) then out
  else out ++ [console_info (VString "ℹ️" :: args)].

Definition warn (args : list JsValue) (out : list ConsoleCall)
    : list ConsoleCall :=
  out ++ [console_warn (VString "⚠️" :: args)].

Definition error (args : list JsValue) (out : list ConsoleCall)
    : list ConsoleCall :=
  out ++ [console_error (VString "❌" :: args)].

(** [debug.api.request(url, options)] *)
Definition api_request (cfg : Config) (url : string) (options : option RequestInit)
    (out : list ConsoleCall) : list ConsoleCall :=
  if negb (debugMode (features cfg)) then out
  else
    out
    ++ [console_group ("🌐 API Request: " +:+ url);
        console_log [VString "Method:";
                     VString (or_default (options ≫= init_method) "GET")];
        console_log [VString "Headers:";
                     match options ≫= init_headers with
                     | Some h => headers_object h
                     | None => VUndefined
                     end]]
    ++ (if JS.truthy (options ≫= init_body)
        then [console_log [VString "Body:"; of_optional (options ≫= init_body)]]
        else [])
    ++ [console_groupEnd].

(** [debug.api.response(url, response, data)]: [None] when reading
    [response.status] throws; the console is returned in both cases. *)
Definition api_response (cfg : Config) (url : string) (response data : JsValue)
    (out : list ConsoleCall) : option unit * list ConsoleCall :=
  if negb (debugMode (features cfg)) then (Some tt, out)
  else
    let out1 := out ++ [console_group ("📡 API Response: " +:+ url)] in
    match member "status" response with
    | None => (None, out1)
    | Some response_status =>
        (Some tt,
         out1
         ++ [console_log [VString "Status:"; response_status];
             console_log [VString "Headers:";
                          default VUndefined (member "headers" response)]]
         ++ (if truthy data then [console_log [VString "Data:"; data]] else [])
         ++ [console_groupEnd])
    end.

(** [debug.render(componentName, props)]; a missing [props] is [undefined]. *)
Definition render (cfg : Config) (componentName : string) (props : JsValue)
    (out : list ConsoleCall) : list ConsoleCall :=
  if negb (debugMode (features cfg)) then out
  else
    out
    ++ [console_log
          [VString ("🎨 Rendering: " +:+ componentName);
           if truthy props then VObject [("props", props)] else VString ""]].

(** ** [class DebugConsole] *)

Record DebugConsole := mkDebugConsole {
  history : list JsValue
}.

(** [static getInstance()], on the static field [instance]: the object
    returned, which is also what the field holds afterward. *)
Definition getInstance (instance : option DebugConsole) : DebugConsole :=
  match instance with
  | Some this => this
  | None => {| history := [] |}
  end.

(** [inspect(obj)]: the value returned, the object and the console. *)
Definition dc_inspect (cfg : Config) (obj : JsValue) (this : DebugConsole)
    (out : list ConsoleCall) : JsValue * DebugConsole * list ConsoleCall :=
  let this' := {| history := history this ++ [obj] |} in
  let '(result, out') := inspect cfg obj None out in
  (result, this', out').

(** [clear()] *)
Definition dc_clear (this : DebugConsole) (out : list ConsoleCall)
    : DebugConsole * list ConsoleCall :=
  ({| history := [] |},
   out ++ [console_clear; console_log [VString "🧹 Debug console cleared"]]).

(** [history_log()] *)
Definition dc_history_log (this : DebugConsole) (out : list ConsoleCall)
    : list JsValue * list ConsoleCall :=
  (history this,
   out ++ [console_log [VString "📜 Debug History:"; VArray (history this)]]).

(** [DebugConsole.getInstance().inspect(obj)], as the code reaches the
    console object: through the static field, which keeps the object. *)
Definition instance_inspect (cfg : Config) (obj : JsValue)
    (instance : option DebugConsole) (out : list ConsoleCall)
    : JsValue * option DebugConsole * list ConsoleCall :=
  let '(result, this', out') := dc_inspect cfg obj (getInstance instance) out in
  (result, Some this', out').

End Debug.

(** * The console tab of [DebugPanel] *)

Module DebugPanel.

(** An entry of [logs]: [{ type: 'log', args, time: new Date() }], with the
    clock reading as a number. *)
Record LogEntry := mkLogEntry {
  type : string;
  args : list JsValue;
  time : Z
}.

(** [prev.slice(-n)]: the last [n] elements, all of them when there are
    fewer. *)
Definition slice_last {A : Type} (n : nat) (prev : list A) : list A :=
  drop (length prev - n) prev.

(** The updater [prev => [...prev.slice(-50), entry]] *)
Definition push_log (entry : LogEntry) (prev : list LogEntry) : list LogEntry :=
  slice_last 50 prev ++ [entry].

(** The replacement of [console.log] installed by the effect: record the
    call in [logs], then call the original. *)
Definition patched_log (now : Z) (call_args : list JsValue)
    (state : list LogEntry * list ConsoleCall)
    : list LogEntry * list ConsoleCall :=
  (push_log {| type := "log"; args := call_args; time := now |} state.1,
   state.2 ++ [console_log call_args]).

(** [clearLogs] *)
Definition clearLogs (logs : list LogEntry) : list LogEntry := [].

End DebugPanel.

(** * Runs of calls, for the statements below *)

(** [DebugConsole.getInstance().inspect(obj)] for each [obj] in turn. *)
Definition inspect_each (cfg : Env.Config) (objs : list JsValue)
    (instance : option Debug.DebugConsole) (out : list ConsoleCall)
    : option Debug.DebugConsole * list ConsoleCall :=
  foldl (fun st obj =>
           let '(_, instance', out') := Debug.instance_inspect cfg obj st.1 st.2 in
           (instance', out'))
        (instance, out) objs.

(** [console.log(...args)] through the patched function, once per element:
    the clock reading and the arguments of each call. *)
Definition log_each (calls : list (Z * list JsValue))
    (state : list DebugPanel.LogEntry * list ConsoleCall)
    : list DebugPanel.LogEntry * list ConsoleCall :=
  foldl (fun st call => DebugPanel.patched_log call.1 call.2 st) state calls.

Definition entry_of (call : Z * list JsValue) : DebugPanel.LogEntry :=
  DebugPanel.mkLogEntry "log" call.2 call.1.

(** A run of console calls that closes every group it opens. *)
Definition balanced (calls : list ConsoleCall) : Prop :=
  forall depth, open_groups depth calls = depth.

(** * Signing in and out: [LoginForm], [LogoutButton], [useSignIn] *)

(** [localStorage.setItem(key, value)] *)
Definition localStorage_setItem (key value : string) : Eff unit :=
  fun w =>
    match localStorage w with
    | Some store =>
        (Fulfilled tt,
         {| localStorage := Some (<[key := value]> store); window := window w |})
    | None => (Rejected (not_defined "localStorage"), w)
    end.

(** [String(v)] for a [string | undefined], as [setItem] converts its
    argument. *)
Definition String_of (v : option string) : string :=
  match v with
  | Some s => s
  | None => "undefined"
  end.

Module Auth.

Section WithBackend.

(** The transport behind axios. *)
Variable adapter : RequestConfig -> Axios.Transport.

(** [body.name] of a response body that axios has parsed to an object or a
    string: the string held by that field, [None] when there is no such
    field. *)
Variable json_field : string -> string -> option string.

(** [JSON.stringify({ email, password })] *)
Variable stringify_credentials : string -> string -> string.

(** The headers axios has put on a request before the interceptors run. *)
Variable default_headers : gmap string string.

(** The request config of [post(url, data)]. *)
Definition post_config (url body : string) : RequestConfig :=
  {| method := "post"; url := url; headers := default_headers; body := Some body |}.

(** [api.post(url, data)]: through the interceptors. *)
Definition api_post (url body : string) : Eff Response :=
  Axios.request adapter (post_config url body).

(** [axios.post(url, data)] on the bare [axios]: no interceptors. *)
Definition axios_post (url body : string) : Eff Response :=
  Axios.dispatchRequest adapter (post_config url body).

(** [err.response?.data?.message || fallback] *)
Definition message_or (err : JsError) (fallback : string) : string :=
  Env.or_default (error_response err ≫= fun r => json_field "message" (data r))
    fallback.

(** The state of [LoginForm]. *)
Record LoginForm := mkLoginForm {
  email : string;
  password : string;
  loading : bool;
  error : string
}.

(** The [try] block of [handleLogin]. *)
Definition login_attempt (form : LoginForm) : Eff unit :=
  response ← api_post "/auth/login"
               (stringify_credentials (email form) (password form));
  localStorage_setItem "token" (String_of (json_field "token" (data response)));;
  window_location_set_href "/dashboard".

(**
<<
  const handleLogin = async (e) => {
    e.preventDefault(); setLoading(true); setError('');
    try {
      const response = await api.post('/auth/login', { email, password });
      localStorage.setItem('token', response.data.token);
      window.location.href = '/dashboard';
    } catch (err) {
      setError(err.response?.data?.message || 'Login failed');
    } finally { setLoading(false); }
  };
>>
    The form as it is once the handler has finished, and the world. *)
Definition handleLogin (form : LoginForm) (w : World) : LoginForm * World :=
  match login_attempt form w with
  | (Fulfilled _, w') =>
      ({| email := email form; password := password form;
          loading := false; error := "" |}, w')
  | (Rejected err, w') =>
      ({| email := email form; password := password form;
          loading := false; error := message_or err "Login failed" |}, w')
  end.

(** [handleLogout] of [LogoutButton]:
<<
  localStorage.removeItem('token');
  window.location.href = '/sign_in';
>> *)
Definition handleLogout : Eff unit :=
  localStorage_removeItem "token";;
  window_location_set_href "/sign_in".

(** The state of the hook [useSignIn]. *)
Record SignInState := mkSignInState {
  hook_data : option string;
  hook_loading : bool;
  hook_error : string
}.

(** What [signIn] resolves to. *)
Inductive SignInResult :=
| success (data : string)
| failure (error : string).

(**
<<
  const signIn = async (email, password) => {
    const signInUrl = '/auth/login';
    try {
      setLoading(true); setError('');
      const response = await axios.post(signInUrl, { email, password });
      setData(response.data);
      localStorage.setItem('token', response.data.token);
      return { success: true, data: response.data };
    } catch (err) {
      const errorMessage = err.response?.data?.message || 'Login failed';
      setError(errorMessage);
      return { success: false, error: errorMessage };
    } finally { setLoading(false); }
  };
>> *)
Definition signIn (email password : string) (state : SignInState) (w : World)
    : SignInResult * SignInState * World :=
  match axios_post "/auth/login" (stringify_credentials email password) w with
  | (Fulfilled response, w1) =>
      match localStorage_setItem "token"
              (String_of (json_field "token" (data response))) w1 with
      | (Fulfilled _, w2) =>
          (success (data response),
           {| hook_data := Some (data response);
              hook_loading := false; hook_error := "" |},
           w2)
      | (Rejected err, w2) =>
          (failure (message_or err "Login failed"),
           {| hook_data := Some (data response);
              hook_loading := false;
              hook_error := message_or err "Login failed" |},
           w2)
      end
  | (Rejected err, w1) =>
      (failure (message_or err "Login failed"),
       {| hook_data := hook_data state;
          hook_loading := false;
          hook_error := message_or err "Login failed" |},
       w1)
  end.

End WithBackend.

End Auth.

(** * [src/examples/server-side-api.tsx]: calls made on the server *)

(** [s.slice(n)]: [s] without its first [n] characters. *)
Fixpoint string_drop (n : nat) (s : string) : string :=
  match n, s with
  | O, _ => s
  | S n', String _ rest => string_drop n' rest
  | S _, EmptyString => EmptyString
  end.

(** [s.replace(pattern, replacement)] for a string pattern and a replacement
    without [$]: the first occurrence is replaced, and [s] is returned as it
    is when there is none. *)
Fixpoint replace_first (pattern replacement s : string) : string :=
  if String.prefix pattern s
  then replacement +:+ string_drop (String.length pattern) s
  else match s with
       | EmptyString => EmptyString
       | String c rest => String c (replace_first pattern replacement rest)
       end.

Module Server.

(** What can be thrown here. [redirect(path)] of [next/navigation] works by
    throwing.  *)
Inductive Thrown :=
| NEXT_REDIRECT (path : string)
| Error (message : string)
| TypeError (message : string)
| SyntaxError.

(** The response of [fetch]: its status and what [response.json()] parses the
    body to, [None] when the body is not JSON. *)
Record FetchResponse := mkFetchResponse {
  status : Z;
  json : option JsValue
}.

(** What [fetch] settles to: a response, or the [TypeError] of a failed
    transport. *)
Inductive FetchOutcome :=
| Responded (response : FetchResponse)
| Failed (message : string).

(** [response.ok] *)
Definition ok (response : FetchResponse) : bool :=
  (200 <=? status response) && (status response <=? 299).

(** [process.env.API_URL || process.env.NEXT_PUBLIC_API_URL || 'http://localhost:3001/api'] *)
Definition baseURL (process_env : gmap string string) : string :=
  Env.or_default (process_env !! "API_URL")
    (Env.or_default (process_env !! "NEXT_PUBLIC_API_URL")
       "http://localhost:3001/api").

(** An [options] argument left out: [{}]. *)
Definition no_options : RequestInit :=
  {| init_method := None; init_headers := None; init_body := None |}.

(**
<<
  const headers = { 'Content-Type': 'application/json', ...options.headers };
  if (token) { headers.Authorization = `Bearer ${token}`; }
>> *)
Definition call_headers (token : option string) (options : RequestInit)
    : gmap string string :=
  let headers :=
    default ∅ (init_headers options) ∪ {[ "Content-Type" := "application/json" ]} in
  if JS.truthy token
  then <["Authorization" := "Bearer " +:+ String_of token]> headers
  else headers.

(** [{ ...options, headers }] *)
Definition call_init (token : option string) (options : RequestInit)
    : RequestInit :=
  {| init_method := init_method options;
     init_headers := Some (call_headers token options);
     init_body := init_body options |}.

(**
<<
  async function serverApiCall(endpoint, token, options = {}) {
    ...
    const response = await fetch(`${baseURL}${endpoint}`, { ...options, headers });
    if (!response.ok) {
      if (response.status === 401) { redirect('/sign_in'); }
      throw new Error(`API Error: ${response.status}`);
    }
    return response.json();
  }
>> *)
Definition serverApiCall (process_env : gmap string string)
    (fetch : string -> RequestInit -> FetchOutcome)
    (endpoint : string) (token : option string) (options : RequestInit)
    : Thrown + JsValue :=
  match fetch (baseURL process_env +:+ endpoint) (call_init token options) with
  | Failed message => inl (TypeError message)
  | Responded response =>
      if negb (ok response)
      then
        if status response =? 401
        then inl (NEXT_REDIRECT "/sign_in")
        else inl (Error ("API Error: " +:+ pretty (status response)))
      else
        match json response with
        | Some parsed => inr parsed
        | None => inl SyntaxError
        end
  end.

(** An error as the console shows it. *)
Definition thrown_value (thrown : Thrown) : JsValue :=
  match thrown with
  | NEXT_REDIRECT path => VString ("NEXT_REDIRECT " +:+ path)
  | Error message => VString message
  | TypeError message => VString message
  | SyntaxError => VString "SyntaxError"
  end.

(**
<<
  async function getUserData(token) {
    try { return await serverApiCall('/user/profile', token); }
    catch (error) { console.error('Failed to fetch user data:', error); throw error; }
  }
>> *)
Definition getUserData (process_env : gmap string string)
    (fetch : string -> RequestInit -> FetchOutcome) (token : string)
    (out : list ConsoleCall) : (Thrown + JsValue) * list ConsoleCall :=
  match serverApiCall process_env fetch "/user/profile" (Some token) no_options with
  | inr parsed => (inr parsed, out)
  | inl thrown =>
      (inl thrown,
       out ++ [console_error [VString "Failed to fetch user data:";
                              thrown_value thrown]])
  end.

(** What [DashboardPage] renders: the dashboard, which shows [userData.name]
    and the data, or the error box. *)
Inductive View :=
| DashboardView (name userData : JsValue)
| ErrorView.

(**
<<
  export default async function DashboardPage() {
    const cookieStore = await cookies();
    const token = cookieStore.get('token')?.value;
    if (!token) { redirect('/sign_in'); }
    try {
      const userData = await getUserData(token);
      return ( ... {userData.name} ... {JSON.stringify(userData, null, 2)} ... );
    } catch (error) {
      return ( ... Failed to load user data ... );
    }
  }
>> *)
Definition DashboardPage (process_env : gmap string string)
    (fetch : string -> RequestInit -> FetchOutcome)
    (cookieStore : gmap string string) (out : list ConsoleCall)
    : (Thrown + View) * list ConsoleCall :=
  let token := cookieStore !! "token" in
  if negb (JS.truthy token)
  then (inl (NEXT_REDIRECT "/sign_in"), out)
  else
    match getUserData process_env fetch (String_of token) out with
    | (inr userData, out') =>
        match Debug.member "name" userData with
        | Some name => (inr (DashboardView name userData), out')
        | None => (inr ErrorView, out')
        end
    | (inl _, out') => (inr ErrorView, out')
    end.

(** What the route handler answers: [Response.json(body, { status })]. *)
Record Reply := mkReply {
  reply_status : Z;
  reply_body : JsValue
}.

Definition error_reply (message : string) (code : Z) : Reply :=
  {| reply_status := code; reply_body := VObject [("error", VString message)] |}.

(** The request the handler sends on to the backend. *)
Definition forwarded_init (token : string) : RequestInit :=
  {| init_method := None;
     init_headers :=
       Some (<["Authorization" := "Bearer " +:+ token]>
               (<["Content-Type" := "application/json"]> ∅));
     init_body := None |}.

(** The [catch] block: log, answer 500. *)
Definition internal_error (thrown : Thrown) (out : list ConsoleCall)
    : Reply * list ConsoleCall :=
  (error_reply "Internal server error" 500,
   out ++ [console_error [VString "API Route Error:"; thrown_value thrown]]).

(** The handler from the outcome of its [fetch] on. *)
Definition answer (outcome : FetchOutcome) (out : list ConsoleCall)
    : Reply * list ConsoleCall :=
  match outcome with
  | Failed message => internal_error (TypeError message) out
  | Responded response =>
      if negb (ok response)
      then
        if status response =? 401
        then (error_reply "Token expired" 401, out)
        else internal_error
               (Error ("API Error: " +:+ pretty (status response))) out
      else
        match json response with
        | Some parsed => ({| reply_status := 200; reply_body := parsed |}, out)
        | None => internal_error SyntaxError out
        end
  end.

(**
<<
  export async function GET(request) {
    const token = request.headers.get('authorization')?.replace('Bearer ', '');
    if (!token) {
      return Response.json({ error: 'No token provided' }, { status: 401 });
    }
    try {
      const response = await fetch(`${baseURL}/protected-data`, { headers: { ... } });
      if (!response.ok) {
        if (response.status === 401) {
          return Response.json({ error: 'Token expired' }, { status: 401 });
        }
        throw new Error(`API Error: ${response.status}`);
      }
      const data = await response.json();
      return Response.json(data);
    } catch (error) {
      console.error('API Route Error:', error);
      return Response.json({ error: 'Internal server error' }, { status: 500 });
    }
  }
>>
    [request_headers] holds the headers of the request under their lower-case
    names, as [Headers.get] looks them up. *)
Definition GET (process_env : gmap string string)
    (fetch : string -> RequestInit -> FetchOutcome)
    (request_headers : gmap string string) (out : list ConsoleCall)
    : Reply * list ConsoleCall :=
  let token := replace_first "Bearer " "" <$> request_headers !! "authorization" in
  if negb (JS.truthy token)
  then (error_reply "No token provided" 401, out)
  else
    answer (fetch (baseURL process_env +:+ "/protected-data")
              (forwarded_init (String_of token)))
           out.

End Server.

(** [s.includes(pattern)] *)
Fixpoint includes (pattern s : string) : bool :=
  String.prefix pattern s
  || match s with
     | EmptyString => false
     | String _ rest => includes pattern rest
     end.

(** * Concrete backends and inputs for the properties of the later parts *)

Module Demo.

(** A body of the form [name=value] has the field [name]. *)
Definition field_of (name body : string) : option string :=
  if String.prefix (name +:+ "=") body
  then Some (string_drop (String.length name + 1) body)
  else None.

Definition credentials (email password : string) : string :=
  email +:+ ":" +:+ password.

(** Accepts one account, refuses another with a 401 and a message, and is
    otherwise broken. *)
Definition login_backend (config : RequestConfig) : Axios.Transport :=
  if bool_decide (body config = Some "alice@example.com:secret")
  then Axios.Replied {| status := 200; data := "token=jwt-1" |}
  else if bool_decide (body config = Some "mallory@example.com:guess")
       then Axios.Replied {| status := 401; data := "message=Invalid credentials" |}
       else if bool_decide (body config = Some "bob@example.com:secret")
            then Axios.Replied {| status := 500; data := "" |}
            else Axios.NoReply "Network Error".


Definition mallory : Auth.LoginForm :=
  Auth.mkLoginForm "mallory@example.com" "guess" false "".

Definition bob : Auth.LoginForm :=
  Auth.mkLoginForm "bob@example.com" "secret" false "".


Definition development : gmap string string :=
  <["NEXT_PUBLIC_APP_ENV" := "development"]> ∅.

Definition production : gmap string string :=
  <["NEXT_PUBLIC_APP_ENV" := "production"]> ∅.

(** Knows one token; answers 401 to any other and 403 to none. *)
Definition users_backend (url : string) (init : RequestInit) : Server.FetchOutcome :=
  match init_headers init ≫= (fun h => h !! "Authorization") with
  | Some credential =>
      if String.eqb credential "Bearer good"
      then Server.Responded
             {| Server.status := 200;
                Server.json := Some (VObject [("name", VString "Alice")]) |}
      else Server.Responded {| Server.status := 401; Server.json := None |}
  | None => Server.Responded {| Server.status := 403; Server.json := None |}
  end.

End Demo.

(** * Properties *)

(** ** The handlers, equation by equation *)

Ltac run_handler :=
  unfold Api.request_onFulfilled, Api.request_onRejected,
    Api.response_onFulfilled, Api.response_onRejected,
    localStorage_getItem, localStorage_removeItem, typeof_window_defined,
    window_location_set_href, Promise_reject, throw,
    mbind, Eff_bind, mret, Eff_ret;
  simpl.

(** What [if (token)] lets through: exactly the non-empty strings. *)
Lemma truthy_nonempty (t : string) : t <> "" -> JS.truthy (Some t) = true.
Proof.
  intros Hne. simpl. destruct (String.eqb_spec t ""); [contradiction | reflexivity].
Qed.

Lemma truthy_inv (v : option string) :
  JS.truthy v = true -> exists t, v = Some t /\ t <> "".
Proof.
  destruct v as [t|]; simpl; [|discriminate].
  destruct (String.eqb_spec t ""); [discriminate|]. eauto.
Qed.

Section Handlers.

Variable w : World.

(** The request handler where the store exists: one read, no write. *)
Lemma request_onFulfilled_store store config :
  localStorage w = Some store ->
  Api.request_onFulfilled config w =
    (Fulfilled
       (if JS.truthy (store !! "token")
        then set_header "Authorization"
               ("Bearer " +:+ JS.to_string (store !! "token")) config
        else config),
     w).
Proof.
  intros Hstore. run_handler. rewrite Hstore.
  destruct (JS.truthy (store !! "token")); reflexivity.
Qed.

(** Without a [localStorage] global the request handler throws. *)
Lemma request_onFulfilled_no_store config :
  localStorage w = None ->
  Api.request_onFulfilled config w = (Rejected (not_defined "localStorage"), w).
Proof. intros Hstore. run_handler. rewrite Hstore. reflexivity. Qed.

(** The response error handler on a 401, where the store exists. *)
Lemma response_onRejected_401 store error :
  localStorage w = Some store ->
  error_response_status error = Some 401 ->
  Api.response_onRejected error w =
    (Rejected error,
     {| localStorage := Some (delete "token" store);
        window := navigate "/sign_in" <$> window w |}).
Proof.
  intros Hstore H401. run_handler.
  rewrite bool_decide_eq_true_2 by exact H401.
  rewrite Hstore. simpl. destruct (window w); reflexivity.
Qed.

(** The response error handler on anything else. *)
Lemma response_onRejected_other error :
  error_response_status error <> Some 401 ->
  Api.response_onRejected error w = (Rejected error, w).
Proof.
  intros Hne. run_handler.
  rewrite bool_decide_eq_false_2 by exact Hne. reflexivity.
Qed.

(** On a 401 without a [localStorage] global, [removeItem] throws before the
    handler reaches [Promise.reject(error)]. *)
Lemma response_onRejected_401_no_store error :
  localStorage w = None ->
  error_response_status error = Some 401 ->
  Api.response_onRejected error w = (Rejected (not_defined "localStorage"), w).
Proof.
  intros Hstore H401. run_handler.
  rewrite bool_decide_eq_true_2 by exact H401.
  rewrite Hstore. reflexivity.
Qed.

End Handlers.

(** The request leaves the interceptor only where the store exists; the world
    is then unchanged and the request is [sent store config]. *)
Lemma request_onFulfilled_inv (w w' : World) (config config' : RequestConfig) :
  Api.request_onFulfilled config w = (Fulfilled config', w') ->
  exists store, localStorage w = Some store /\ w' = w /\ config' = sent store config.
Proof.
  destruct (localStorage w) as [store|] eqn:Hstore.
  - rewrite (request_onFulfilled_store w store config Hstore).
    intros [= <- <-]. exists store. repeat split.
  - rewrite (request_onFulfilled_no_store w config Hstore). discriminate.
Qed.

(** The interceptor changes the request only to attach a non-empty stored
    token. *)
Lemma request_changed_only_by_token (w w' : World) (config config' : RequestConfig) :
  Api.request_onFulfilled config w = (Fulfilled config', w') ->
  config' <> config ->
  exists token,
    stored_token w = Some token /\ token <> ""
    /\ config' = set_header "Authorization" ("Bearer " +:+ token) config.
Proof.
  intros Hrun Hchanged.
  destruct (request_onFulfilled_inv w w' config config' Hrun)
    as (store & Hstore & _ & ->).
  unfold sent in *. destruct (JS.truthy (store !! "token")) eqn:Htruthy.
  - destruct (truthy_inv _ Htruthy) as (token & Htoken & Hne).
    exists token. unfold stored_token. rewrite Hstore, Htoken. simpl.
    repeat split; assumption.
  - contradiction Hchanged. reflexivity.
Qed.

(** Two 401s handled one after the other, as when two requests were in flight
    with the same stale token: the second clear changes nothing, and each
    response starts its own navigation. *)
Lemma response_onRejected_401_twice (w : World) store error error' :
  localStorage w = Some store ->
  error_response_status error = Some 401 ->
  error_response_status error' = Some 401 ->
  localStorage (Api.response_onRejected error' (Api.response_onRejected error w).2).2
    = localStorage (Api.response_onRejected error w).2
  /\ navigations_fired w
       (Api.response_onRejected error' (Api.response_onRejected error w).2).2
     = match window w with
       | Some _ => ["/sign_in"; "/sign_in"]
       | None => []
       end.
Proof.
  intros Hstore H401 H401'.
  rewrite (response_onRejected_401 w store error Hstore H401). simpl.
  set (w1 := {| localStorage := Some (delete "token" store);
                window := navigate "/sign_in" <$> window w |}).
  rewrite (response_onRejected_401 w1 (delete "token" store) error' eq_refl H401').
  subst w1. simpl. rewrite delete_delete_eq. split; [reflexivity|].
  unfold navigations_fired, navigation_log. simpl.
  destruct (window w) as [win|]; simpl; [|reflexivity].
  rewrite <- app_assoc. apply drop_app_length.
Qed.

(** A response with status 401 never passes the default [validateStatus]: it
    reaches the response interceptor through the rejected handler. *)
Lemma settle_401 (response : Response) :
  status response = 401 ->
  exists message,
    Axios.settle response = Rejected (AxiosError message (Some response)).
Proof.
  intros H401. unfold Axios.settle, Axios.validateStatus. rewrite H401.
  simpl. eauto.
Qed.

Lemma settle_fulfilled (response : Response) :
  Axios.settle response = Fulfilled response ->
  200 <= status response < 300.
Proof.
  unfold Axios.settle, Axios.validateStatus.
  destruct (200 <=? status response) eqn:Hlo; simpl; [|discriminate].
  destruct (status response <? 300) eqn:Hhi; simpl; [|discriminate].
  intros _. lia.
Qed.

(** Without [localStorage] the request interceptor rejects, the dispatch is
    skipped, and the response interceptor passes the [ReferenceError] on: no
    response of the server is ever handled in such a world. *)
Lemma request_without_localStorage adapter config (w : World) :
  localStorage w = None ->
  Axios.request adapter config w = (Rejected (not_defined "localStorage"), w).
Proof.
  intros Hstore. unfold Axios.request, Axios.then_.
  unfold mret at 1, Eff_ret at 1.
  rewrite request_onFulfilled_no_store by exact Hstore.
  unfold throw.
  rewrite response_onRejected_other; [reflexivity | discriminate].
Qed.

(** ** Response interceptor *)

(** C1. Whenever the response error handler is given an error whose response
    has status 401, no token is stored afterward, whatever was stored before:
    the ['token'] entry is removed from the store, and the other entries
    stay. *)
Theorem unauthorized_clears_token (w : World) (error : JsError) :
  error_response_status error = Some 401 ->
  stored_token (Api.response_onRejected error w).2 = None
  /\ (forall store : gmap string string,
        localStorage w = Some store ->
        localStorage (Api.response_onRejected error w).2
          = Some (delete "token" store)).
Proof.
  intros H401. destruct (localStorage w) as [store|] eqn:Hstore.
  - rewrite (response_onRejected_401 w store error Hstore H401).
    unfold stored_token. simpl. split.
    + apply lookup_delete_eq.
    + intros store' [= <-]. reflexivity.
  - rewrite (response_onRejected_401_no_store w error Hstore H401).
    unfold stored_token. simpl. rewrite Hstore. split; [reflexivity | discriminate].
Qed.

Lemma unauthorized_clears_token_witness :
  stored_token (Sample.browser Sample.store_abc) = Some "abc"
  /\ stored_token
       (Api.response_onRejected Sample.error_401 (Sample.browser Sample.store_abc)).2
     = None
  /\ localStorage
       (Api.response_onRejected Sample.error_401 (Sample.browser Sample.store_abc)).2
     = Some Sample.store_no_token.
Proof.
  split; [reflexivity|]. split.
  - apply (proj1 (unauthorized_clears_token
                    (Sample.browser Sample.store_abc) Sample.error_401 eq_refl)).
  - apply (proj2 (unauthorized_clears_token
                    (Sample.browser Sample.store_abc) Sample.error_401 eq_refl)
             Sample.store_abc eq_refl).
Defined.

(** C2. On a 401 the promise of the response error handler is rejected with
    the very error it was given: clearing the token and navigating do not
    replace the failure. *)
Theorem unauthorized_error_propagates
    (w : World) (store : gmap string string) (error : JsError) :
  localStorage w = Some store ->
  error_response_status error = Some 401 ->
  (Api.response_onRejected error w).1 = Rejected error.
Proof.
  intros Hstore H401.
  rewrite (response_onRejected_401 w store error Hstore H401). reflexivity.
Qed.

Lemma unauthorized_error_propagates_witness :
  (Api.response_onRejected Sample.error_401 (Sample.browser Sample.store_abc)).1
    = Rejected Sample.error_401.
Proof.
  apply (unauthorized_error_propagates
           (Sample.browser Sample.store_abc) Sample.store_abc Sample.error_401);
    reflexivity.
Defined.

(** C3, as worded, fails: where [typeof window] is ['undefined'] the handler
    clears the token and navigates zero times. *)
Lemma unauthorized_without_window_never_navigates :
  error_response_status Sample.error_401 = Some 401
  /\ navigations_fired (Sample.windowless Sample.store_abc)
       (Api.response_onRejected Sample.error_401
          (Sample.windowless Sample.store_abc)).2 = []
  /\ ~ navigates_exactly_once (Sample.windowless Sample.store_abc) Sample.error_401.
Proof.
  split; [reflexivity|]. split; [reflexivity|].
  unfold navigates_exactly_once. vm_compute. discriminate.
Qed.

(** C3, amended. On a 401, where a window exists the handler starts exactly
    one navigation, to ['/sign_in']; where none exists it starts none. *)
Theorem unauthorized_navigates_once_with_window
    (w : World) (store : gmap string string) (error : JsError) :
  localStorage w = Some store ->
  error_response_status error = Some 401 ->
  (forall win, window w = Some win ->
     navigates_exactly_once w error
     /\ navigation_log (Api.response_onRejected error w).2
        = navigations win ++ ["/sign_in"])
  /\ (window w = None ->
      navigations_fired w (Api.response_onRejected error w).2 = []).
Proof.
  intros Hstore H401. unfold navigates_exactly_once.
  rewrite (response_onRejected_401 w store error Hstore H401).
  unfold navigations_fired, navigation_log. simpl. split.
  - intros win Hwin. rewrite Hwin. simpl.
    split; [apply drop_app_length | reflexivity].
  - intros Hwin. rewrite Hwin. reflexivity.
Qed.

Lemma unauthorized_navigates_once_with_window_witness :
  navigates_exactly_once (Sample.browser Sample.store_abc) Sample.error_401
  /\ navigations_fired (Sample.windowless Sample.store_abc)
       (Api.response_onRejected Sample.error_401
          (Sample.windowless Sample.store_abc)).2 = [].
Proof.
  split.
  - apply (proj1 (unauthorized_navigates_once_with_window
                    (Sample.browser Sample.store_abc) Sample.store_abc
                    Sample.error_401 eq_refl eq_refl) Sample.tab eq_refl).
  - apply (proj2 (unauthorized_navigates_once_with_window
                    (Sample.windowless Sample.store_abc) Sample.store_abc
                    Sample.error_401 eq_refl eq_refl) eq_refl).
Defined.

(** C6. The fulfilled handler returns every response as it is and touches
    nothing; the rejected handler, on an error that carries another status or
    no response at all, rejects with that error and leaves the world (store
    and window) as it was. *)
Theorem other_outcomes_pass_through (w : World) :
  (forall response : Response,
     Api.response_onFulfilled response w = (Fulfilled response, w))
  /\ (forall error : JsError,
        error_response_status error <> Some 401 ->
        Api.response_onRejected error w = (Rejected error, w)).
Proof.
  split.
  - intros response. reflexivity.
  - intros error Hne. apply response_onRejected_other, Hne.
Qed.

Lemma other_outcomes_pass_through_witness :
  Api.response_onRejected Sample.error_500 (Sample.browser Sample.store_abc)
    = (Rejected Sample.error_500, Sample.browser Sample.store_abc)
  /\ Api.response_onRejected Sample.network_error (Sample.browser Sample.store_abc)
     = (Rejected Sample.network_error, Sample.browser Sample.store_abc).
Proof.
  split.
  - apply (proj2 (other_outcomes_pass_through (Sample.browser Sample.store_abc))
             Sample.error_500).
    vm_compute. discriminate.
  - apply (proj2 (other_outcomes_pass_through (Sample.browser Sample.store_abc))
             Sample.network_error).
    vm_compute. discriminate.
Defined.

(** C10. On a 401 in a world without a window, the handler still removes the
    token from the store, still rejects with the error it was given, and
    starts no navigation: [removeItem] runs before, and outside, the test on
    [window]. *)
Theorem unauthorized_without_window (w : World) (error : JsError) :
  window w = None ->
  error_response_status error = Some 401 ->
  stored_token (Api.response_onRejected error w).2 = None
  /\ navigations_fired w (Api.response_onRejected error w).2 = []
  /\ window (Api.response_onRejected error w).2 = None
  /\ (forall store : gmap string string,
        localStorage w = Some store ->
        Api.response_onRejected error w
          = (Rejected error,
             {| localStorage := Some (delete "token" store); window := None |})).
Proof.
  intros Hwin H401. destruct (localStorage w) as [store|] eqn:Hstore.
  - rewrite (response_onRejected_401 w store error Hstore H401).
    unfold navigations_fired, navigation_log, stored_token. rewrite Hwin. simpl.
    repeat split.
    + apply lookup_delete_eq.
    + intros store' [= <-]. reflexivity.
  - rewrite (response_onRejected_401_no_store w error Hstore H401).
    unfold navigations_fired, navigation_log, stored_token. simpl.
    rewrite Hwin, Hstore. simpl. repeat split. discriminate.
Qed.

Lemma unauthorized_without_window_witness :
  Api.response_onRejected Sample.error_401 (Sample.windowless Sample.store_abc)
    = (Rejected Sample.error_401, Sample.windowless Sample.store_no_token).
Proof.
  apply (proj2 (proj2 (proj2 (unauthorized_without_window
                                (Sample.windowless Sample.store_abc)
                                Sample.error_401 eq_refl eq_refl)))
           Sample.store_abc eq_refl).
Defined.

(** ** Request interceptor *)

(** C4, as worded, fails: a stored token that is the empty string is falsy
    under [if (token)], and the request leaves without the header. *)
Lemma empty_stored_token_not_attached :
  stored_token (Sample.browser Sample.store_empty_token) = Some ""
  /\ outgoing_Authorization Sample.get_profile
       (Sample.browser Sample.store_empty_token) = None
  /\ outgoing_Authorization Sample.get_profile
       (Sample.browser Sample.store_empty_token) <> Some ("Bearer " +:+ "").
Proof.
  split; [reflexivity|]. split; [reflexivity|]. vm_compute. discriminate.
Qed.

(** C4, amended. While the store holds a non-empty token, the request leaves
    the interceptor with [Authorization] set to ["Bearer "] followed by exactly
    that token, and is otherwise as the caller built it. *)
Theorem stored_token_attached
    (w : World) (token : string) (config : RequestConfig) :
  stored_token w = Some token ->
  token <> "" ->
  Api.request_onFulfilled config w
    = (Fulfilled (set_header "Authorization" ("Bearer " +:+ token) config), w)
  /\ outgoing_Authorization config w = Some ("Bearer " +:+ token).
Proof.
  intros Htoken Hne. unfold stored_token in Htoken.
  destruct (localStorage w) as [store|] eqn:Hstore; [|discriminate].
  simpl in Htoken. unfold outgoing_Authorization.
  rewrite (request_onFulfilled_store w store config Hstore), Htoken.
  rewrite (truthy_nonempty token Hne). simpl.
  split; [reflexivity | apply lookup_insert_eq].
Qed.

Lemma stored_token_attached_witness :
  outgoing_Authorization Sample.get_profile (Sample.browser Sample.store_abc)
    = Some "Bearer abc".
Proof.
  apply (stored_token_attached
           (Sample.browser Sample.store_abc) "abc" Sample.get_profile).
  - reflexivity.
  - discriminate.
Defined.

(** C5. While the store holds no token, the interceptor hands the request on
    exactly as the caller built it: nothing is attached, and the request
    proceeds. *)
Theorem no_token_nothing_attached
    (w : World) (store : gmap string string) (config : RequestConfig) :
  localStorage w = Some store ->
  store !! "token" = None ->
  Api.request_onFulfilled config w = (Fulfilled config, w)
  /\ outgoing_Authorization config w = headers config !! "Authorization".
Proof.
  intros Hstore Htoken. unfold outgoing_Authorization.
  rewrite (request_onFulfilled_store w store config Hstore), Htoken.
  simpl. split; reflexivity.
Qed.

Lemma no_token_nothing_attached_witness :
  Api.request_onFulfilled Sample.get_posts (Sample.browser Sample.store_no_token)
    = (Fulfilled Sample.get_posts, Sample.browser Sample.store_no_token)
  /\ outgoing_Authorization Sample.get_posts (Sample.browser Sample.store_no_token)
     = None.
Proof.
  apply (no_token_nothing_attached
           (Sample.browser Sample.store_no_token) Sample.store_no_token
           Sample.get_posts);
    reflexivity.
Defined.

(** ** Route guard *)

(** C7. A request for a path that starts with ['/dashboard'] and carries no
    ['token'] cookie is redirected to ['/sign_in'] on the origin of the
    request; a request for any other path proceeds, whatever its cookies. *)
Theorem guard_redirects_without_cookie (request : RouteGuard.NextRequest) :
  (RouteGuard.protected request ->
   RouteGuard.cookies request !! "token" = None ->
   RouteGuard.middleware request
     = RouteGuard.redirect
         (RouteGuard.mkURL (RouteGuard.origin (RouteGuard.url request)) "/sign_in" ""))
  /\ (~ RouteGuard.protected request ->
      RouteGuard.middleware request = RouteGuard.next).
Proof.
  unfold RouteGuard.protected, RouteGuard.middleware, RouteGuard.cookies_get_value.
  split.
  - intros Hpath Hcookie. rewrite Hpath, Hcookie. reflexivity.
  - intros Hpath.
    destruct (JS.startsWith _ _); [contradiction Hpath; reflexivity | reflexivity].
Qed.

Lemma guard_redirects_without_cookie_witness :
  RouteGuard.middleware (Sample.visit "/dashboard/settings" ∅)
    = RouteGuard.redirect (Sample.site "/sign_in")
  /\ RouteGuard.middleware (Sample.visit "/about" (<["token" := "abc"]> ∅))
     = RouteGuard.next
  /\ RouteGuard.middleware (Sample.visit "/about" ∅) = RouteGuard.next.
Proof.
  split; [|split].
  - apply (proj1 (guard_redirects_without_cookie
                    (Sample.visit "/dashboard/settings" ∅)));
      reflexivity.
  - apply (proj2 (guard_redirects_without_cookie
                    (Sample.visit "/about" (<["token" := "abc"]> ∅)))).
    vm_compute. discriminate.
  - apply (proj2 (guard_redirects_without_cookie (Sample.visit "/about" ∅))).
    vm_compute. discriminate.
Defined.

(** C8, as worded, fails: a ['token'] cookie whose value is the empty string
    does not let a dashboard request through. *)
Lemma guard_redirects_empty_cookie :
  RouteGuard.protected (Sample.visit "/dashboard" (<["token" := ""]> ∅))
  /\ RouteGuard.cookies (Sample.visit "/dashboard" (<["token" := ""]> ∅)) !! "token"
     = Some ""
  /\ RouteGuard.middleware (Sample.visit "/dashboard" (<["token" := ""]> ∅))
     = RouteGuard.redirect (Sample.site "/sign_in")
  /\ RouteGuard.middleware (Sample.visit "/dashboard" (<["token" := ""]> ∅))
     <> RouteGuard.next.
Proof.
  split; [reflexivity|]. split; [reflexivity|]. split; [reflexivity|].
  vm_compute. discriminate.
Qed.

(** C8, amended. A request for a protected path that carries a ['token'] cookie
    with any non-empty value proceeds; the value is not looked at further. *)
Theorem guard_passes_with_cookie
    (request : RouteGuard.NextRequest) (value : string) :
  RouteGuard.protected request ->
  RouteGuard.cookies request !! "token" = Some value ->
  value <> "" ->
  RouteGuard.middleware request = RouteGuard.next.
Proof.
  unfold RouteGuard.protected, RouteGuard.middleware, RouteGuard.cookies_get_value.
  intros Hpath Hcookie Hne.
  rewrite Hpath, Hcookie, (truthy_nonempty value Hne). reflexivity.
Qed.

Lemma guard_passes_with_cookie_witness :
  RouteGuard.middleware
    (Sample.visit "/dashboard/settings" (<["token" := "not-even-a-jwt"]> ∅))
  = RouteGuard.next.
Proof.
  apply (guard_passes_with_cookie
           (Sample.visit "/dashboard/settings" (<["token" := "not-even-a-jwt"]> ∅))
           "not-even-a-jwt").
  - reflexivity.
  - reflexivity.
  - discriminate.
Defined.

(** C9. The empty string counts as no credential on both sides: with [""]
    stored under ['token'] the request interceptor attaches nothing, and a
    dashboard request whose ['token'] cookie is [""] is redirected to
    ['/sign_in'] exactly as the same request without the cookie is. *)
Theorem empty_credential_is_absent :
  (forall (w : World) (store : gmap string string) (config : RequestConfig),
     localStorage w = Some store ->
     store !! "token" = Some "" ->
     Api.request_onFulfilled config w = (Fulfilled config, w)
     /\ outgoing_Authorization config w = headers config !! "Authorization")
  /\ (forall request : RouteGuard.NextRequest,
        RouteGuard.protected request ->
        RouteGuard.cookies request !! "token" = Some "" ->
        RouteGuard.middleware request
          = RouteGuard.redirect
              (RouteGuard.mkURL (RouteGuard.origin (RouteGuard.url request))
                 "/sign_in" "")
        /\ RouteGuard.middleware request
           = RouteGuard.middleware (RouteGuard.without_token request)).
Proof.
  split.
  - intros w store config Hstore Htoken. unfold outgoing_Authorization.
    rewrite (request_onFulfilled_store w store config Hstore), Htoken.
    simpl. split; reflexivity.
  - intros request Hpath Hcookie.
    unfold RouteGuard.protected, RouteGuard.middleware,
      RouteGuard.cookies_get_value, RouteGuard.without_token in *.
    simpl. rewrite Hpath, Hcookie, lookup_delete_eq. split; reflexivity.
Qed.

Lemma empty_credential_is_absent_witness :
  outgoing_Authorization Sample.get_posts (Sample.browser Sample.store_empty_token)
    = None
  /\ RouteGuard.middleware (Sample.visit "/dashboard" (<["token" := ""]> ∅))
     = RouteGuard.redirect (Sample.site "/sign_in").
Proof.
  split.
  - apply (proj1 empty_credential_is_absent
             (Sample.browser Sample.store_empty_token) Sample.store_empty_token
             Sample.get_posts);
      reflexivity.
  - apply (proj2 empty_credential_is_absent
             (Sample.visit "/dashboard" (<["token" := ""]> ∅)));
      reflexivity.
Defined.

(** ** End to end: a request through [api] *)

Section EndToEnd.

Variable adapter : RequestConfig -> Axios.Transport.

(** A 401 reply: the caller gets the axios error that carries it, the token
    is gone, and the window, if any, is sent to the sign-in page. *)
Lemma request_unauthorized (w : World) store config response :
  localStorage w = Some store ->
  adapter (sent store config) = Axios.Replied response ->
  status response = 401 ->
  exists message,
    Axios.request adapter config w
      = (Rejected (AxiosError message (Some response)),
         {| localStorage := Some (delete "token" store);
            window := navigate "/sign_in" <$> window w |}).
Proof.
  intros Hstore Hreply H401.
  destruct (settle_401 response H401) as [message Hsettle].
  exists message. unfold Axios.request, Axios.then_.
  unfold mret at 1, Eff_ret at 1.
  rewrite (request_onFulfilled_store w store config Hstore).
  fold (sent store config). unfold Axios.dispatchRequest.
  rewrite Hreply, Hsettle.
  apply response_onRejected_401; [exact Hstore |].
  unfold error_response_status. simpl. rewrite H401. reflexivity.
Qed.

(** The same without a word on the world: whenever the request leaves the
    interceptor and the transport answers it with a 401, the caller gets the
    error that carries that response, and no token is stored afterward. *)
Lemma request_unauthorized_handled (w w1 : World) config config' response :
  Api.request_onFulfilled config w = (Fulfilled config', w1) ->
  adapter config' = Axios.Replied response ->
  status response = 401 ->
  exists message,
    (Axios.request adapter config w).1
      = Rejected (AxiosError message (Some response))
    /\ stored_token (Axios.request adapter config w).2 = None.
Proof.
  intros Hsent Hreply H401.
  destruct (request_onFulfilled_inv w w1 config config' Hsent)
    as (store & Hstore & _ & ->).
  destruct (request_unauthorized w store config response Hstore Hreply H401)
    as [message Hrun].
  exists message. rewrite Hrun. unfold stored_token. simpl.
  split; [reflexivity | apply lookup_delete_eq].
Qed.

(** Any other outcome of the transport: the caller gets it as axios settles
    it, and the world is as it was. *)
Lemma request_otherwise (w : World) store config :
  localStorage w = Some store ->
  (forall response,
     adapter (sent store config) = Axios.Replied response ->
     status response <> 401) ->
  Axios.request adapter config w
    = (match adapter (sent store config) with
       | Axios.Replied response => Axios.settle response
       | Axios.NoReply message => Rejected (AxiosError message None)
       end, w).
Proof.
  intros Hstore Hother. unfold Axios.request, Axios.then_.
  unfold mret at 1, Eff_ret at 1.
  rewrite (request_onFulfilled_store w store config Hstore).
  fold (sent store config). unfold Axios.dispatchRequest.
  destruct (adapter (sent store config)) as [response|message] eqn:Hreply.
  - specialize (Hother response eq_refl).
    unfold Axios.settle. destruct (Axios.validateStatus (status response)).
    + reflexivity.
    + apply response_onRejected_other.
      unfold error_response_status. simpl. intros [= Heq]. contradiction.
  - apply response_onRejected_other. discriminate.
Qed.

End EndToEnd.

(** Token ["abc"], call to [/user/profile]: the backend sees [Bearer abc]; on
    its 401 the store loses the token, one navigation to [/sign_in] is added,
    and the caller receives the error with the 401 response. *)
Example scenario_expired_token :
  Axios.request rejecting_backend Sample.get_profile (Sample.browser Sample.store_abc)
  = (Rejected
       (AxiosError "Request failed with status code 401"
          (Some {| status := 401; data := "Bearer abc" |})),
     {| localStorage := Some Sample.store_no_token;
        window := Some {| location_href := "/sign_in";
                          navigations := ["/dashboard"; "/sign_in"] |} |}).
Proof. vm_compute. reflexivity. Qed.

(** No token, call to [/posts]: sent without the header, and the response
    comes back untouched. *)
Example scenario_public_call :
  Axios.request public_backend Sample.get_posts (Sample.browser Sample.store_no_token)
  = (Fulfilled {| status := 200; data := "none" |},
     Sample.browser Sample.store_no_token).
Proof. vm_compute. reflexivity. Qed.

(** Neither global: the request never leaves, whatever the backend would say. *)
Example scenario_no_globals :
  Axios.request rejecting_backend Sample.get_profile Sample.bare
  = (Rejected (ReferenceError "localStorage is not defined"), Sample.bare).
Proof. vm_compute. reflexivity. Qed.

(** * Beyond the client and the guard *)

(** ** Environment configuration *)

Ltac case_app_env process_env :=
  unfold Env.config, Env.strict_eq; simpl;
  destruct (process_env !! "NEXT_PUBLIC_APP_ENV") as [app_env|];
  repeat case_bool_decide; simplify_eq; simpl; try done.

(** X1. At most one of [isDev], [isStaging], [isProd] holds; [analytics] and
    [verboseLogging] are always opposite; [debugMode] and [betaFeatures] are
    only ever on together with [verboseLogging]. *)
Theorem config_flags_consistent (process_env : gmap string string) :
  let cfg := Env.config process_env in
  Env.isDev cfg && Env.isStaging cfg = false
  /\ Env.isDev cfg && Env.isProd cfg = false
  /\ Env.isStaging cfg && Env.isProd cfg = false
  /\ Env.analytics (Env.features cfg) = negb (Env.verboseLogging (Env.features cfg))
  /\ Env.debugMode (Env.features cfg) && negb (Env.verboseLogging (Env.features cfg))
     = false
  /\ Env.betaFeatures (Env.features cfg) && negb (Env.verboseLogging (Env.features cfg))
     = false.
Proof. case_app_env process_env. Qed.

(** X2. With [NEXT_PUBLIC_APP_ENV] unset or empty, [config.env] reads
    ['development'] while [isDev] and [debugMode] are off: the flags compare
    the raw variable, not the defaulted [env]. Info-level logging is on. *)
Theorem config_default_env_is_not_dev (process_env : gmap string string) :
  JS.truthy (process_env !! "NEXT_PUBLIC_APP_ENV") = false ->
  let cfg := Env.config process_env in
  Env.env cfg = "development"
  /\ Env.isDev cfg = false
  /\ Env.debugMode (Env.features cfg) = false
  /\ Env.verboseLogging (Env.features cfg) = true
  /\ (forall args out, Env.logger_debug cfg args out = out)
  /\ (forall args out,
        Env.logger_info cfg args out
          = out ++ [console_info (VString "[INFO]" :: args)]).
Proof.
  intros Hfalsy. unfold Env.logger_debug, Env.logger_info.
  unfold Env.config, Env.strict_eq, Env.or_default. simpl.
  destruct (process_env !! "NEXT_PUBLIC_APP_ENV") as [app_env|]; simpl in *.
  - destruct (String.eqb_spec app_env ""); [subst | discriminate]. done.
  - done.
Qed.

Lemma config_default_env_is_not_dev_witness :
  Env.env (Env.config ∅) = "development" /\ Env.isDev (Env.config ∅) = false.
Proof.
  pose proof (config_default_env_is_not_dev ∅ eq_refl) as (Henv & Hdev & _).
  exact (conj Henv Hdev).
Defined.

(** X3. [env], [apiUrl] and [appUrl] are never the empty string, and the base URL
    the axios instance is created with is [config.apiUrl]. *)
Theorem config_urls_never_empty (process_env : gmap string string) :
  let cfg := Env.config process_env in
  Env.env cfg <> ""
  /\ Env.apiUrl cfg <> ""
  /\ Env.appUrl cfg <> ""
  /\ Env.api_baseURL process_env = Env.apiUrl cfg.
Proof.
  assert (Hor : forall a d, d <> "" -> Env.or_default a d <> "").
  { intros [s|] d Hd; simpl; [|exact Hd].
    destruct (String.eqb_spec s ""); [exact Hd | assumption]. }
  simpl. repeat split; try apply Hor; discriminate.
Qed.

(** X4. The object printed as 'Available NEXT_PUBLIC_ vars' holds exactly the
    variables of [process.env] whose name starts with [NEXT_PUBLIC_], each
    with its value: no other variable reaches the console. *)
Theorem public_vars_exactly_prefixed (process_env : gmap string string) (key : string) :
  Env.public_vars process_env !! key
  = if JS.startsWith key "NEXT_PUBLIC_"
    then Some <$> process_env !! key
    else None.
Proof.
  unfold Env.public_vars.
  assert (Hfold : forall (l : list string) (acc : gmap string (option string)),
            foldl (fun acc key => <[key := process_env !! key]> acc) acc l !! key
            = if decide (key ∈ l) then Some (process_env !! key) else acc !! key).
  { induction l as [|k l IH]; intros acc; simpl.
    - destruct (decide (key ∈ [])) as [Hin|_]; [|reflexivity].
      by apply elem_of_nil in Hin.
    - rewrite IH.
      destruct (decide (key ∈ l)) as [Hin|Hnin];
        destruct (decide (key ∈ k :: l)) as [Hin'|Hnin']; try reflexivity.
      + contradiction Hnin'. apply elem_of_cons. right. exact Hin.
      + destruct (decide (key = k)) as [->|Hne]; [apply lookup_insert_eq|].
        apply elem_of_cons in Hin' as [?|?]; contradiction.
      + destruct (decide (key = k)) as [->|Hne].
        * contradiction Hnin'. apply elem_of_cons. left. reflexivity.
        * apply lookup_insert_ne. congruence. }
  rewrite Hfold, lookup_empty.
  assert (Hmem : key ∈ List.filter (fun k => JS.startsWith k "NEXT_PUBLIC_")
                         (Env.keys process_env)
                 <-> JS.startsWith key "NEXT_PUBLIC_" = true
                     /\ is_Some (process_env !! key)).
  { rewrite list_elem_of_In, filter_In, <- list_elem_of_In.
    unfold Env.keys. rewrite list_elem_of_fmap. split.
    - intros [[[k v] [-> Hkv]] Hp]. apply elem_of_map_to_list in Hkv.
      split; [exact Hp | eauto].
    - intros [Hp [v Hv]]. split; [|exact Hp].
      exists (key, v). split; [reflexivity | by apply elem_of_map_to_list]. }
  destruct (decide _) as [Hin|Hnin].
  - apply Hmem in Hin as [-> [v ->]]. reflexivity.
  - destruct (JS.startsWith key "NEXT_PUBLIC_") eqn:Hp; [|reflexivity].
    destruct (process_env !! key) as [v|] eqn:Hv; [|reflexivity].
    contradiction Hnin. apply Hmem. eauto.
Qed.

(** ** Debugging helpers *)

Lemma open_groups_app depth (a b : list ConsoleCall) :
  open_groups depth (a ++ b) = open_groups (open_groups depth a) b.
Proof.
  revert depth. induction a as [|call a IH]; intros depth; [reflexivity|].
  destruct call; simpl; apply IH.
Qed.

Lemma config_debugMode (process_env : gmap string string) :
  Env.debugMode (Env.features (Env.config process_env))
  = bool_decide (process_env !! "NEXT_PUBLIC_APP_ENV" = Some "development").
Proof. reflexivity. Qed.

(** X5. Unless [NEXT_PUBLIC_APP_ENV] is exactly ['development'], none of the
    debug-level helpers writes to the console or reaches a [debugger]
    statement, [debug.inspect] still returns its argument, and loading the
    configuration module prints nothing. *)
Theorem debug_silent_outside_development (process_env : gmap string string) :
  process_env !! "NEXT_PUBLIC_APP_ENV" <> Some "development" ->
  let cfg := Env.config process_env in
  (forall obj label out, Debug.inspect cfg obj label out = (obj, out))
  /\ (forall condition args out, Debug.when cfg condition args out = out)
  /\ (forall label out, Debug.time cfg label out = out)
  /\ (forall label out, Debug.timeEnd cfg label out = out)
  /\ (forall data message out, Debug.breakpoint cfg data message out = out)
  /\ (forall url options out, Debug.api_request cfg url options out = out)
  /\ (forall url response data out,
        Debug.api_response cfg url response data out = (Some tt, out))
  /\ (forall name props out, Debug.render cfg name props out = out)
  /\ (forall args out, Env.logger_debug cfg args out = out)
  /\ (forall w out, Env.on_load process_env w out = out).
Proof.
  intros Hne cfg.
  assert (Hoff : Env.debugMode (Env.features cfg) = false).
  { subst cfg. rewrite config_debugMode. by apply bool_decide_eq_false_2. }
  unfold Debug.inspect, Debug.when, Debug.time, Debug.timeEnd, Debug.breakpoint,
    Debug.api_request, Debug.api_response, Debug.render, Env.logger_debug,
    Env.on_load.
  fold cfg. rewrite Hoff. simpl. repeat split.
Qed.

Lemma debug_silent_outside_development_witness :
  Debug.breakpoint (Env.config (<["NEXT_PUBLIC_APP_ENV" := "production"]> ∅))
    (VString "form") None []
  = [].
Proof.
  pose proof (debug_silent_outside_development
                (<["NEXT_PUBLIC_APP_ENV" := "production"]> ∅)) as H.
  apply H. vm_compute. discriminate.
Defined.

(** X6. [debug.inspect] returns its argument in every mode, only appends to the
    console, and closes the group it opens; so does [debug.api.request]. *)
Theorem inspect_returns_argument_balanced
    (cfg : Env.Config) (obj : JsValue) (label : option string)
    (url : string) (options : option RequestInit) (out : list ConsoleCall) :
  (Debug.inspect cfg obj label out).1 = obj
  /\ (exists added,
        (Debug.inspect cfg obj label out).2 = out ++ added /\ balanced added)
  /\ (exists added,
        Debug.api_request cfg url options out = out ++ added /\ balanced added).
Proof.
  unfold Debug.inspect, Debug.api_request, balanced.
  destruct (Env.debugMode (Env.features cfg)); simpl.
  - split; [reflexivity|]. split.
    + eexists. split; [reflexivity|]. intros depth.
      destruct (Debug.is_object obj); reflexivity.
    + eexists. split; [reflexivity|]. intros depth.
      destruct (JS.truthy _); reflexivity.
  - split; [reflexivity|].
    split; exists []; (split; [symmetry; apply app_nil_r | reflexivity]).
Qed.

(** X7. [debug.api.response] throws exactly when debug mode is on and the
    response is [undefined] or [null]; the group it opened then stays open.
    Whenever it returns, its groups are closed. *)
Theorem api_response_throws_on_missing_response
    (cfg : Env.Config) (url : string) (response data : JsValue)
    (out : list ConsoleCall) :
  ((Debug.api_response cfg url response data out).1 = None
   <-> Env.debugMode (Env.features cfg) = true
       /\ (response = VUndefined \/ response = VNull))
  /\ (exists added,
        (Debug.api_response cfg url response data out).2 = out ++ added
        /\ forall depth,
             open_groups depth added
             = match (Debug.api_response cfg url response data out).1 with
               | Some _ => depth
               | None => S depth
               end).
Proof.
  unfold Debug.api_response.
  destruct (Env.debugMode (Env.features cfg)); simpl.
  - destruct response; simpl.
    1,2: split; [split; [intros _; split; [reflexivity | auto] | reflexivity]|];
         eexists; split; [reflexivity|]; intros depth; reflexivity.
    all: split; [split; [discriminate | intros [_ [?|?]]; discriminate]|];
         eexists; (split; [rewrite <- app_assoc; reflexivity|]);
         intros depth; simpl; destruct (Debug.truthy data); reflexivity.
  - split.
    + split; [discriminate | intros [? _]; discriminate].
    + exists []. split; [symmetry; apply app_nil_r | reflexivity].
Qed.

Lemma api_response_throws_on_missing_response_witness :
  (Debug.api_response (Env.config (<["NEXT_PUBLIC_APP_ENV" := "development"]> ∅))
     "/auth/login" VUndefined VUndefined []).1 = None.
Proof.
  apply (proj1 (api_response_throws_on_missing_response
                  (Env.config (<["NEXT_PUBLIC_APP_ENV" := "development"]> ∅))
                  "/auth/login" VUndefined VUndefined [])).
  split; [reflexivity | left; reflexivity].
Defined.

(** X8. In development [debug.breakpoint] always reaches its [debugger] statement
    and [debug.when] reaches it exactly when the condition holds. *)
Theorem breakpoint_pauses_in_development
    (cfg : Env.Config) (data : JsValue) (message : option string)
    (condition : bool) (args : list JsValue) (out : list ConsoleCall) :
  Env.debugMode (Env.features cfg) = true ->
  (exists before, Debug.breakpoint cfg data message out
                  = out ++ before ++ [debugger_statement])
  /\ (if condition
      then exists before, Debug.when cfg condition args out
                          = out ++ before ++ [debugger_statement]
      else Debug.when cfg condition args out = out).
Proof.
  intros Hon. unfold Debug.breakpoint, Debug.when. rewrite Hon. simpl. split.
  - destruct (Debug.truthy data); eexists; simpl.
    + instantiate (1 := [_; _; _]). reflexivity.
    + instantiate (1 := [_; _]). reflexivity.
  - destruct condition; [|reflexivity].
    exists [console_log (VString "🐛 Debug condition met:" :: args)]. reflexivity.
Qed.

Lemma breakpoint_pauses_in_development_witness :
  exists before,
    Debug.breakpoint (Env.config (<["NEXT_PUBLIC_APP_ENV" := "development"]> ∅))
      VUndefined None []
    = [] ++ before ++ [debugger_statement].
Proof.
  apply (breakpoint_pauses_in_development
           (Env.config (<["NEXT_PUBLIC_APP_ENV" := "development"]> ∅))
           VUndefined None true [] []).
  reflexivity.
Defined.

(** ** [DebugConsole] *)

Lemma inspect_each_history
    (cfg : Env.Config) (objs : list JsValue)
    (instance : option Debug.DebugConsole) (out : list ConsoleCall) :
  (inspect_each cfg objs instance out).1
  = match objs with
    | [] => instance
    | _ => Some {| Debug.history :=
                     Debug.history (Debug.getInstance instance) ++ objs |}
    end.
Proof.
  revert instance out. induction objs as [|obj objs IH]; intros instance out.
  - reflexivity.
  - unfold inspect_each in *. simpl.
    unfold Debug.instance_inspect, Debug.dc_inspect.
    destruct (Debug.inspect cfg obj None out) as [result out'] eqn:Hinspect.
    simpl. rewrite IH. destruct objs as [|obj' objs]; simpl.
    + reflexivity.
    + rewrite <- app_assoc. reflexivity.
Qed.

(** X9. Every [inspect] through the singleton is recorded, in call order and in
    every mode, debug mode off included: after inspecting [objs] the history
    is the old one followed by [objs], and the instance is never replaced. *)
Theorem console_history_grows_in_every_mode
    (cfg : Env.Config) (objs : list JsValue)
    (instance : option Debug.DebugConsole) (out : list ConsoleCall) :
  Debug.history (Debug.getInstance (inspect_each cfg objs instance out).1)
  = Debug.history (Debug.getInstance instance) ++ objs.
Proof.
  rewrite inspect_each_history. destruct objs; simpl.
  - symmetry. apply app_nil_r.
  - reflexivity.
Qed.

(** X10. After [clear()], the history holds exactly what is inspected from then
    on: [history_log()] returns those values, in order. *)
Theorem console_clear_forgets
    (cfg : Env.Config) (this : Debug.DebugConsole) (objs : list JsValue)
    (out : list ConsoleCall) :
  let cleared := Debug.dc_clear this out in
  let after := inspect_each cfg objs (Some cleared.1) cleared.2 in
  (Debug.dc_history_log (Debug.getInstance after.1) after.2).1 = objs.
Proof.
  simpl. rewrite inspect_each_history. destruct objs; reflexivity.
Qed.

(** ** The log buffer of [DebugPanel] *)

Lemma slice_last_slice_last {A : Type} (l : list A) :
  DebugPanel.slice_last 50 (DebugPanel.slice_last 51 l) = DebugPanel.slice_last 50 l.
Proof.
  unfold DebugPanel.slice_last. rewrite length_drop, drop_drop. f_equal. lia.
Qed.

Lemma slice_last_snoc {A : Type} (l : list A) (x : A) :
  DebugPanel.slice_last 51 (l ++ [x]) = DebugPanel.slice_last 50 l ++ [x].
Proof.
  unfold DebugPanel.slice_last. rewrite length_app. simpl.
  replace (length l + 1 - 51)%nat with (length l - 50)%nat by lia.
  apply drop_app_le. lia.
Qed.

Lemma log_each_snoc calls call state :
  log_each (calls ++ [call]) state
  = DebugPanel.patched_log call.1 call.2 (log_each calls state).
Proof. unfold log_each. rewrite foldl_app. reflexivity. Qed.

(** X11. While the panel is mounted, [logs] holds the last 51 calls of
    [console.log] (not 50: the slice keeps 50 and one is added), oldest first,
    and every call still reaches the original [console.log], in order. *)
Theorem panel_keeps_last_51_logs
    (calls : list (Z * list JsValue)) (out : list ConsoleCall) :
  (log_each calls ([], out)).1 = DebugPanel.slice_last 51 (entry_of <$> calls)
  /\ (length (log_each calls ([], out)).1 <= 51)%nat
  /\ (log_each calls ([], out)).2
     = out ++ ((fun call : Z * list JsValue => console_log call.2) <$> calls).
Proof.
  assert (Hlogs : (log_each calls ([], out)).1
                  = DebugPanel.slice_last 51 (entry_of <$> calls)).
  { induction calls as [|call calls IH] using rev_ind; [reflexivity|].
    rewrite log_each_snoc, fmap_app. simpl.
    unfold DebugPanel.push_log. rewrite IH, slice_last_slice_last.
    symmetry. apply slice_last_snoc. }
  split; [exact Hlogs|]. split.
  - rewrite Hlogs. unfold DebugPanel.slice_last. rewrite length_drop. lia.
  - clear Hlogs. induction calls as [|call calls IH] using rev_ind.
    + simpl. symmetry. apply app_nil_r.
    + rewrite log_each_snoc, fmap_app. simpl.
      rewrite IH, <- app_assoc. reflexivity.
Qed.

(** ** Signing in and out *)


Lemma or_default_nonempty (a : option string) (d : string) :
  d <> "" -> Env.or_default a d <> "".
Proof.
  intros Hd. destruct a as [s|]; simpl; [|exact Hd].
  destruct (String.eqb_spec s ""); [exact Hd | assumption].
Qed.


Ltac run_login :=
  unfold Auth.handleLogin, Auth.login_attempt, Auth.api_post, Auth.handleLogout,
    Auth.signIn, Auth.axios_post, mbind, Eff_bind.

Section AuthProperties.

Variable adapter : RequestConfig -> Axios.Transport.
Variable json_field : string -> string -> option string.
Variable stringify_credentials : string -> string -> string.
Variable default_headers : gmap string string.

Local Abbreviation handleLogin :=
  (Auth.handleLogin adapter json_field stringify_credentials default_headers).
Local Abbreviation signIn :=
  (Auth.signIn adapter json_field stringify_credentials default_headers).
Local Abbreviation login_config form :=
  (Auth.post_config default_headers "/auth/login"
     (stringify_credentials (Auth.email form) (Auth.password form))).


(** X13. A 401 on the login request itself goes through the response interceptor
    like any other: a token stored earlier is removed, the browser is sent to
    ['/sign_in'], and the form shows the server's message, or ['Login failed']
    when there is none. *)
Theorem login_unauthorized_tears_down
    (form : Auth.LoginForm) (w : World) store response :
  localStorage w = Some store ->
  adapter (sent store (login_config form)) = Axios.Replied response ->
  status response = 401 ->
  handleLogin form w
  = ({| Auth.email := Auth.email form; Auth.password := Auth.password form;
        Auth.loading := false;
        Auth.error :=
          Env.or_default (json_field "message" (data response)) "Login failed" |},
     {| localStorage := Some (delete "token" store);
        window := navigate "/sign_in" <$> window w |}).
Proof.
  intros Hstore Hreply H401. run_login.
  destruct (request_unauthorized adapter w store _ response Hstore Hreply H401)
    as [message ->].
  reflexivity.
Qed.

(** X14. Any other failure of the login request (another error status, or no
    reply) leaves the store and the window as they were; the form stops
    loading and shows a message that is never empty. *)
Theorem login_failure_leaves_session
    (form : Auth.LoginForm) (w : World) store :
  localStorage w = Some store ->
  match adapter (sent store (login_config form)) with
  | Axios.Replied response =>
      Axios.validateStatus (status response) = false /\ status response <> 401
  | Axios.NoReply _ => True
  end ->
  (handleLogin form w).2 = w
  /\ Auth.loading (handleLogin form w).1 = false
  /\ Auth.error (handleLogin form w).1 <> "".
Proof.
  intros Hstore Hfail. run_login.
  rewrite (request_otherwise adapter w store _ Hstore).
  - destruct (adapter _) as [response|message]; simpl.
    + destruct Hfail as [Hbad _]. unfold Axios.settle. rewrite Hbad. simpl.
      repeat split. apply or_default_nonempty. discriminate.
    + repeat split. apply or_default_nonempty. discriminate.
  - intros response Hreply. rewrite Hreply in Hfail. tauto.
Qed.



End AuthProperties.

(** X17. After [handleLogout] no token is stored and the next request through
    [api] leaves exactly as its caller built it; where there is a window the
    logout ends with one navigation to ['/sign_in'], and where there is none
    it throws after the token is already removed. *)
Theorem logout_then_request_unauthenticated
    (w : World) store (next : RequestConfig) :
  localStorage w = Some store ->
  let after := (Auth.handleLogout w).2 in
  after = {| localStorage := Some (delete "token" store);
             window := navigate "/sign_in" <$> window w |}
  /\ stored_token after = None
  /\ Api.request_onFulfilled next after = (Fulfilled next, after)
  /\ (Auth.handleLogout w).1
     = match window w with
       | Some _ => Fulfilled tt
       | None => Rejected (not_defined "window")
       end.
Proof.
  intros Hstore.
  assert (Hrun : Auth.handleLogout w
                 = (match window w with
                    | Some _ => Fulfilled tt
                    | None => Rejected (not_defined "window")
                    end,
                    {| localStorage := Some (delete "token" store);
                       window := navigate "/sign_in" <$> window w |})).
  { run_login. unfold localStorage_removeItem, window_location_set_href.
    rewrite Hstore. simpl. destruct (window w); reflexivity. }
  simpl. rewrite Hrun. simpl. split; [reflexivity|].
  assert (Hgone : delete "token" store !! "token" = None) by apply lookup_delete_eq.
  split; [exact Hgone|]. split; [|reflexivity].
  set (after := {| localStorage := Some (delete "token" store);
                   window := navigate "/sign_in" <$> window w |}).
  rewrite (request_onFulfilled_store after (delete "token" store) next eq_refl).
  rewrite Hgone. reflexivity.
Qed.

(** ** Calls made on the server *)

Lemma prefix_append (p t : string) : String.prefix p (p +:+ t) = true.
Proof.
  induction p as [|c p IH]; simpl; [destruct t; reflexivity|].
  destruct (Ascii.ascii_dec c c); [exact IH | contradiction].
Qed.

Lemma string_drop_append (p t : string) :
  string_drop (String.length p) (p +:+ t) = t.
Proof. induction p as [|c p IH]; simpl; [destruct t; reflexivity | exact IH]. Qed.

Lemma replace_first_unfold (p r s : string) :
  replace_first p r s
  = if String.prefix p s
    then r +:+ string_drop (String.length p) s
    else match s with
         | EmptyString => EmptyString
         | String c rest => String c (replace_first p r rest)
         end.
Proof. destruct s; reflexivity. Qed.

Lemma replace_first_prefix (p t : string) : replace_first p "" (p +:+ t) = t.
Proof.
  rewrite replace_first_unfold, prefix_append, string_drop_append. reflexivity.
Qed.

Lemma replace_first_absent (p r s : string) :
  includes p s = false -> replace_first p r s = s.
Proof.
  induction s as [|c s IH]; intros Habsent; rewrite replace_first_unfold.
  - change (String.prefix p "" || false = false) in Habsent.
    apply orb_false_elim in Habsent as [-> _]. reflexivity.
  - change (String.prefix p (String c s) || includes p s = false) in Habsent.
    apply orb_false_elim in Habsent as [-> Hrest].
    rewrite IH by exact Hrest. reflexivity.
Qed.

Section ServerProperties.

Variable process_env : gmap string string.
Variable fetch : string -> RequestInit -> Server.FetchOutcome.

(** X18. In the headers [serverApiCall] sends, a [Content-Type] given by the
    caller replaces the default [application/json], while the token, when
    there is one, replaces any [Authorization] the caller gave; every other
    header is the caller's. *)
Theorem serverApiCall_header_precedence
    (token : option string) (options : RequestInit) (name : string) :
  let given := default ∅ (init_headers options) in
  Server.call_headers token options !! name
  = if bool_decide (name = "Authorization") && JS.truthy token
    then Some ("Bearer " +:+ String_of token)
    else match given !! name with
         | Some value => Some value
         | None => if bool_decide (name = "Content-Type")
                   then Some "application/json"
                   else None
         end.
Proof.
  simpl. unfold Server.call_headers.
  set (given := default ∅ (init_headers options)).
  assert (Hunion : (given ∪ {["Content-Type" := "application/json"]}) !! name
                   = match given !! name with
                     | Some value => Some value
                     | None => if bool_decide (name = "Content-Type")
                               then Some "application/json"
                               else None
                     end).
  { rewrite lookup_union. destruct (given !! name) as [value|]; simpl.
    - destruct (_ !! name); reflexivity.
    - case_bool_decide as Hname.
      + subst name. rewrite lookup_singleton_eq. reflexivity.
      + rewrite lookup_singleton_ne by congruence. reflexivity. }
  destruct (JS.truthy token); rewrite ?andb_true_r, ?andb_false_r.
  - destruct (decide (name = "Authorization")) as [->|Hname].
    + rewrite bool_decide_eq_true_2 by reflexivity. apply lookup_insert_eq.
    + rewrite (bool_decide_eq_false_2 _ Hname).
      rewrite lookup_insert_ne by congruence. exact Hunion.
  - exact Hunion.
Qed.

(** X19. [serverApiCall] returns a body only for a 2xx response whose body parses;
    it throws the redirect to ['/sign_in'] exactly for a 401, and an [Error]
    naming the status for every other status outside 2xx. *)
Theorem serverApiCall_outcome
    (endpoint : string) (token : option string) (options : RequestInit) :
  let outcome :=
    fetch (Server.baseURL process_env +:+ endpoint) (Server.call_init token options) in
  let result := Server.serverApiCall process_env fetch endpoint token options in
  (forall parsed,
     result = inr parsed
     <-> exists response,
           outcome = Server.Responded response
           /\ 200 <= Server.status response <= 299
           /\ Server.json response = Some parsed)
  /\ (forall path,
        result = inl (Server.NEXT_REDIRECT path)
        <-> path = "/sign_in"
            /\ exists response,
                 outcome = Server.Responded response /\ Server.status response = 401)
  /\ (forall message,
        result = inl (Server.Error message)
        <-> exists response,
              outcome = Server.Responded response
              /\ ~ 200 <= Server.status response <= 299
              /\ Server.status response <> 401
              /\ message = "API Error: " +:+ pretty (Server.status response)).
Proof.
  simpl. unfold Server.serverApiCall, Server.ok.
  destruct (fetch _ _) as [response|failure].
  - destruct (Z.leb_spec 200 (Server.status response)) as [Hlo|Hlo];
      destruct (Z.leb_spec (Server.status response) 299) as [Hhi|Hhi]; simpl;
      destruct (Z.eqb_spec (Server.status response) 401) as [H401|H401];
      destruct (Server.json response) as [body|] eqn:Hjson;
      repeat split; intros;
      repeat match goal with
        | H : exists _, _ |- _ => destruct H
        | H : _ /\ _ |- _ => destruct H
        | H : Server.Responded _ = Server.Responded _ |- _ =>
            injection H as <-
        | H : inl _ = inl _ |- _ => injection H as H
        | H : inr _ = inr _ |- _ => injection H as H
        | H : Server.NEXT_REDIRECT _ = Server.NEXT_REDIRECT _ |- _ =>
            injection H as H
        | H : Server.Error _ = Server.Error _ |- _ => injection H as H
        end;
      subst; try discriminate; try congruence; try lia;
      try (eexists; repeat split; try reflexivity; try eassumption; lia).
  - repeat split; intros;
      repeat match goal with
        | H : exists _, _ |- _ => destruct H
        | H : _ /\ _ |- _ => destruct H
        end; discriminate.
Qed.

(** X20. [DashboardPage] throws only the redirect to ['/sign_in'], and exactly
    when the ['token'] cookie is missing or empty; with a cookie it always
    renders. In particular the redirect that [serverApiCall] throws on a 401
    of the backend is caught by the page's own [catch]: the page renders the
    error box and no redirect happens. *)
Theorem DashboardPage_redirects_only_without_cookie
    (cookieStore : gmap string string) (out : list ConsoleCall) :
  (forall thrown,
     (Server.DashboardPage process_env fetch cookieStore out).1 = inl thrown
     <-> thrown = Server.NEXT_REDIRECT "/sign_in"
         /\ JS.truthy (cookieStore !! "token") = false)
  /\ (forall token response,
        cookieStore !! "token" = Some token ->
        token <> "" ->
        fetch (Server.baseURL process_env +:+ "/user/profile")
              (Server.call_init (Some token) Server.no_options)
          = Server.Responded response ->
        Server.status response = 401 ->
        (Server.DashboardPage process_env fetch cookieStore out).1
          = inr Server.ErrorView).
Proof.
  unfold Server.DashboardPage. split.
  - intros thrown. destruct (JS.truthy (cookieStore !! "token")); simpl.
    + destruct (Server.getUserData _ _ _ _) as [[thrown'|userData] out'].
      * split; [discriminate | intros [_ ?]; discriminate].
      * destruct (Debug.member "name" userData);
          (split; [discriminate | intros [_ ?]; discriminate]).
    + split; [intros [= <-]; auto | intros [-> _]; reflexivity].
  - intros token response Hcookie Hne Hfetch H401.
    rewrite Hcookie, (truthy_nonempty token Hne). simpl.
    unfold Server.getUserData, Server.serverApiCall.
    rewrite Hfetch. unfold Server.ok. rewrite H401. reflexivity.
Qed.

(** X21. The guard and the page agree: a dashboard request that [middleware] lets
    through is never redirected by the page's own cookie check, and one that
    [middleware] redirects would be redirected by the page too. *)
Theorem guard_and_page_agree
    (request : RouteGuard.NextRequest) (out : list ConsoleCall) :
  RouteGuard.protected request ->
  (RouteGuard.middleware request = RouteGuard.next
   <-> exists view,
         (Server.DashboardPage process_env fetch (RouteGuard.cookies request) out).1
           = inr view).
Proof.
  unfold RouteGuard.protected, RouteGuard.middleware, RouteGuard.cookies_get_value,
    Server.DashboardPage.
  intros ->. destruct (JS.truthy (RouteGuard.cookies request !! "token")); simpl.
  - split; [intros _ | reflexivity].
    destruct (Server.getUserData _ _ _ _) as [[thrown|userData] out'].
    + eauto.
    + destruct (Debug.member "name" userData); eauto.
  - split; [discriminate | intros [view ?]; discriminate].
Qed.


(** X23. Round trip of the credential through the route handler: for an incoming
    [authorization] header ['Bearer ' + token] with a non-empty token, the
    backend is called with exactly that header, and the handler's answer is
    decided by the backend's answer alone. *)
Theorem GET_forwards_bearer_unchanged
    (request_headers : gmap string string) (token : string)
    (out : list ConsoleCall) :
  request_headers !! "authorization" = Some ("Bearer " +:+ token) ->
  token <> "" ->
  Server.GET process_env fetch request_headers out
  = Server.answer
      (fetch (Server.baseURL process_env +:+ "/protected-data")
             (Server.forwarded_init token))
      out
  /\ init_headers (Server.forwarded_init token) ≫= (fun h => h !! "Authorization")
     = request_headers !! "authorization".
Proof.
  intros Hheader Hne.
  assert (Htoken : replace_first "Bearer " "" <$> request_headers !! "authorization"
                   = Some token).
  { rewrite Hheader.
    change (Some (replace_first "Bearer " "" ("Bearer " +:+ token)) = Some token).
    rewrite replace_first_prefix. reflexivity. }
  unfold Server.GET. rewrite Htoken, (truthy_nonempty token Hne). simpl.
  split; [reflexivity|]. rewrite Hheader. apply lookup_insert_eq.
Qed.

(** X24. A credential sent without the ['Bearer '] prefix is not refused: the
    handler passes it on to the backend with the prefix put in front. *)
Theorem GET_adds_missing_prefix
    (request_headers : gmap string string) (credential : string)
    (out : list ConsoleCall) :
  request_headers !! "authorization" = Some credential ->
  includes "Bearer " credential = false ->
  credential <> "" ->
  Server.GET process_env fetch request_headers out
  = Server.answer
      (fetch (Server.baseURL process_env +:+ "/protected-data")
             (Server.forwarded_init credential))
      out.
Proof.
  intros Hheader Habsent Hne.
  assert (Htoken : replace_first "Bearer " "" <$> request_headers !! "authorization"
                   = Some credential).
  { rewrite Hheader.
    change (Some (replace_first "Bearer " "" credential) = Some credential).
    rewrite (replace_first_absent "Bearer " "" credential Habsent). reflexivity. }
  unfold Server.GET. rewrite Htoken, (truthy_nonempty credential Hne). reflexivity.
Qed.

End ServerProperties.

(** ** The properties above at concrete inputs *)


Lemma login_unauthorized_tears_down_witness :
  Auth.handleLogin Demo.login_backend Demo.field_of Demo.credentials ∅
    Demo.mallory (Sample.browser Sample.store_abc)
  = (Auth.mkLoginForm "mallory@example.com" "guess" false "Invalid credentials",
     {| localStorage := Some Sample.store_no_token;
        window := Some {| location_href := "/sign_in";
                          navigations := ["/dashboard"; "/sign_in"] |} |}).
Proof.
  apply (login_unauthorized_tears_down
           Demo.login_backend Demo.field_of Demo.credentials ∅
           Demo.mallory (Sample.browser Sample.store_abc) Sample.store_abc
           {| status := 401; data := "message=Invalid credentials" |});
    reflexivity.
Defined.

Lemma login_failure_leaves_session_witness :
  (Auth.handleLogin Demo.login_backend Demo.field_of Demo.credentials ∅
     Demo.bob (Sample.browser Sample.store_abc)).2
  = Sample.browser Sample.store_abc.
Proof.
  apply (login_failure_leaves_session
           Demo.login_backend Demo.field_of Demo.credentials ∅
           Demo.bob (Sample.browser Sample.store_abc) Sample.store_abc eq_refl).
  vm_compute. split; [reflexivity | discriminate].
Defined.



Lemma logout_then_request_unauthenticated_witness :
  stored_token (Auth.handleLogout (Sample.browser Sample.store_abc)).2 = None
  /\ Api.request_onFulfilled Sample.get_posts
       (Auth.handleLogout (Sample.browser Sample.store_abc)).2
     = (Fulfilled Sample.get_posts,
        (Auth.handleLogout (Sample.browser Sample.store_abc)).2).
Proof.
  pose proof (logout_then_request_unauthenticated
                (Sample.browser Sample.store_abc) Sample.store_abc
                Sample.get_posts eq_refl) as (_ & Hgone & Hnext & _).
  exact (conj Hgone Hnext).
Defined.

Lemma serverApiCall_outcome_witness :
  Server.serverApiCall ∅ Demo.users_backend "/user/profile" (Some "stale")
    Server.no_options
  = inl (Server.NEXT_REDIRECT "/sign_in").
Proof.
  apply (proj1 (proj2 (serverApiCall_outcome ∅ Demo.users_backend
                         "/user/profile" (Some "stale") Server.no_options))).
  split; [reflexivity|].
  exists {| Server.status := 401; Server.json := None |}.
  split; reflexivity.
Defined.

Lemma DashboardPage_redirects_only_without_cookie_witness :
  (Server.DashboardPage ∅ Demo.users_backend (<["token" := "stale"]> ∅) []).1
    = inr Server.ErrorView
  /\ (Server.DashboardPage ∅ Demo.users_backend ∅ []).1
     = inl (Server.NEXT_REDIRECT "/sign_in").
Proof.
  split.
  - apply (proj2 (DashboardPage_redirects_only_without_cookie
                    ∅ Demo.users_backend (<["token" := "stale"]> ∅) [])
             "stale" {| Server.status := 401; Server.json := None |}).
    + reflexivity.
    + discriminate.
    + reflexivity.
    + reflexivity.
  - apply (proj1 (DashboardPage_redirects_only_without_cookie
                    ∅ Demo.users_backend ∅ [])).
    split; reflexivity.
Defined.

Lemma guard_and_page_agree_witness :
  exists view,
    (Server.DashboardPage ∅ Demo.users_backend
       (RouteGuard.cookies (Sample.visit "/dashboard" (<["token" := "good"]> ∅)))
       []).1
    = inr view.
Proof.
  apply (guard_and_page_agree ∅ Demo.users_backend
           (Sample.visit "/dashboard" (<["token" := "good"]> ∅)) []);
    reflexivity.
Defined.


Lemma GET_forwards_bearer_unchanged_witness :
  (Server.GET ∅ Demo.users_backend (<["authorization" := "Bearer good"]> ∅) []).1
  = {| Server.reply_status := 200;
       Server.reply_body := VObject [("name", VString "Alice")] |}.
Proof.
  pose proof (GET_forwards_bearer_unchanged ∅ Demo.users_backend
                (<["authorization" := "Bearer good"]> ∅) "good" [] eq_refl) as H.
  destruct H as [Hrun _]; [discriminate|]. rewrite Hrun. reflexivity.
Defined.

Lemma GET_adds_missing_prefix_witness :
  (Server.GET ∅ Demo.users_backend (<["authorization" := "good"]> ∅) []).1
  = {| Server.reply_status := 200;
       Server.reply_body := VObject [("name", VString "Alice")] |}.
Proof.
  rewrite (GET_adds_missing_prefix ∅ Demo.users_backend
             (<["authorization" := "good"]> ∅) "good" []).
  - reflexivity.
  - reflexivity.
  - reflexivity.
  - discriminate.
Defined.

(** ** More on the interceptors *)

(** X25. The request interceptor changes nothing but the [Authorization] header:
    method, URL, body and every other header are the caller's, and the world
    is left as it was. An [Authorization] header set by the caller is
    replaced when a non-empty token is stored, and kept otherwise. *)
Theorem interceptor_touches_only_authorization
    (config config' : RequestConfig) (w w' : World) :
  Api.request_onFulfilled config w = (Fulfilled config', w') ->
  w' = w
  /\ method config' = method config
  /\ url config' = url config
  /\ body config' = body config
  /\ (forall name, name <> "Authorization" ->
        headers config' !! name = headers config !! name)
  /\ headers config' !! "Authorization"
     = if JS.truthy (stored_token w)
       then Some ("Bearer " +:+ JS.to_string (stored_token w))
       else headers config !! "Authorization".
Proof.
  intros Hrun.
  destruct (request_onFulfilled_inv w w' config config' Hrun)
    as (store & Hstore & -> & ->).
  unfold sent, stored_token. rewrite Hstore. simpl.
  destruct (JS.truthy (store !! "token")); simpl.
  - repeat split; [|apply lookup_insert_eq].
    intros name Hname. apply lookup_insert_ne. congruence.
  - repeat split.
Qed.

Lemma interceptor_touches_only_authorization_witness :
  headers
    (set_header "Authorization" "Bearer abc"
       (set_header "Authorization" "Basic dXNlcg==" Sample.get_profile))
    !! "Accept"
  = Some "application/json".
Proof.
  pose proof (interceptor_touches_only_authorization
                (set_header "Authorization" "Basic dXNlcg==" Sample.get_profile)
                (set_header "Authorization" "Bearer abc"
                   (set_header "Authorization" "Basic dXNlcg==" Sample.get_profile))
                (Sample.browser Sample.store_abc)
                (Sample.browser Sample.store_abc)) as H.
  destruct H as (_ & _ & _ & _ & Hothers & _); [reflexivity|].
  rewrite (Hothers "Accept"); [reflexivity | discriminate].
Defined.

Lemma response_onRejected_401_twice_witness :
  navigations_fired (Sample.browser Sample.store_abc)
    (Api.response_onRejected Sample.error_401
       (Api.response_onRejected Sample.error_401
          (Sample.browser Sample.store_abc)).2).2
  = ["/sign_in"; "/sign_in"].
Proof.
  apply (response_onRejected_401_twice
           (Sample.browser Sample.store_abc) Sample.store_abc
           Sample.error_401 Sample.error_401);
    reflexivity.
Defined.

Lemma request_without_localStorage_witness :
  Axios.request rejecting_backend Sample.get_profile Sample.bare
  = (Rejected (not_defined "localStorage"), Sample.bare).
Proof.
  apply (request_without_localStorage rejecting_backend Sample.get_profile
           Sample.bare).
  reflexivity.
Defined.
